(** * TinyDB tables and their query cache

    A shallow embedding of [tinydb/utils.py] (class [LRUCache]) and of
    [tinydb/table.py] (classes [Document] and [Table]), followed by the
    properties of the specification that were checked against them.

    Python dictionaries keep their keys in insertion order, and both the
    eviction order of the cache and the order of query results depend on
    it, so every dictionary is an association list here, oldest binding
    first. *)

From Stdlib Require Import ZArith List Lia Bool.
From stdpp Require Import base decidable option numbers strings.
Import ListNotations.

Open Scope Z_scope.
Open Scope list_scope.

(* ===================================================================== *)
(** ** Insertion-ordered dictionaries ([dict], [OrderedDict]) *)
(* ===================================================================== *)

Module ODict.
Section Defs.
Context {K V : Type} `{EqDecision K}.

(** [d.get(k)] / [d[k]] *)
Fixpoint get (k : K) (d : list (K * V)) : option V :=
  match d with
  | [] => None
  | (k', v) :: d' => if decide (k = k') then Some v else get k d'
  end.

(** [k in d] *)
Definition mem (k : K) (d : list (K * V)) : bool :=
  match get k d with Some _ => true | None => false end.

(** [del d[k]] (also the removal half of [d.pop(k)]) *)
Fixpoint del (k : K) (d : list (K * V)) : list (K * V) :=
  match d with
  | [] => []
  | (k', v) :: d' =>
      if decide (k = k') then del k d' else (k', v) :: del k d'
  end.

(** [d[k] = v]: an existing key keeps its position, a new one goes last *)
Fixpoint set (k : K) (v : V) (d : list (K * V)) : list (K * V) :=
  match d with
  | [] => [(k, v)]
  | (k', v') :: d' =>
      if decide (k = k') then (k, v) :: d' else (k', v') :: set k v d'
  end.

(** [list(d.keys())] *)
Definition keys (d : list (K * V)) : list K := map fst d.

(** [d.update(other)] *)
Definition update (d other : list (K * V)) : list (K * V) :=
  fold_left (fun acc kv => set (fst kv) (snd kv) acc) other d.

(** [d.popitem(last=False)] on a non-empty dictionary: what is left *)
Definition drop_first (d : list (K * V)) : list (K * V) := tl d.

(** The representation invariant of a dictionary: no key twice. *)
Definition wf (d : list (K * V)) : Prop := NoDup (keys d).
End Defs.
End ODict.

(* ===================================================================== *)
(** ** [tinydb/utils.py]: class [LRUCache] *)
(* ===================================================================== *)

Inductive KeyError := KeyError_raised.

Module LRUCache.
Section Defs.
Context {K V : Type} `{EqDecision K}.

(** [capacity] is [None] (unbounded) or a size, a natural number;
    [cache] is the [OrderedDict], least recently used entry first. *)
Record t := mk {
  capacity : option nat;
  cache : list (K * V);
}.

(** [__init__(self, capacity=None)] *)
Definition __init__ (capacity : option nat) : t :=
  {| capacity := capacity; cache := [] |}.

(** Every method takes [self] and returns its result with the new
    [self]. *)

Definition __len__ (self : t) : nat * t := (length (cache self), self).

Definition __contains__ (key : K) (self : t) : bool * t :=
  (ODict.mem key (cache self), self).

(** The first three lines of [__setitem__]: [self.cache] once the key
    has been deleted, if it was there, and stored again. *)
Definition inserted (key : K) (value : V) (self : t) : list (K * V) :=
  (if ODict.mem key (cache self)
   then ODict.del key (cache self)
   else cache self) ++ [(key, value)].

Definition __setitem__ (key : K) (value : V) (self : t) : t :=
  let c := inserted key value self in
  match capacity self with
  | Some cap =>
      if (cap <? length c)%nat
      then {| capacity := capacity self; cache := ODict.drop_first c |}
      else {| capacity := capacity self; cache := c |}
  | None => {| capacity := capacity self; cache := c |}
  end.

Definition __delitem__ (key : K) (self : t) : (KeyError + unit) * t :=
  match ODict.get key (cache self) with
  | None => (inl KeyError_raised, self)
  | Some _ =>
      (inr tt, {| capacity := capacity self;
                  cache := ODict.del key (cache self) |})
  end.

Definition __getitem__ (key : K) (self : t) : (KeyError + V) * t :=
  match ODict.get key (cache self) with
  | None => (inl KeyError_raised, self)
  | Some value =>
      (inr value,
       {| capacity := capacity self;
          cache := ODict.del key (cache self) ++ [(key, value)] |})
  end.

Definition __iter__ (self : t) : list K * t := (ODict.keys (cache self), self).

(** [get(self, key, default=None)] *)
Definition get (key : K) (default : option V) (self : t) : option V * t :=
  match __getitem__ key self with
  | (inr value, self') => (Some value, self')
  | (inl _, self') => (default, self')
  end.

Definition clear (self : t) : t :=
  {| capacity := capacity self; cache := [] |}.

Definition lru (self : t) : list K * t := (ODict.keys (cache self), self).

(** The operations of the class as data, to speak of "any operation". *)
Inductive op :=
| OpLen
| OpContains (key : K)
| OpSet (key : K) (value : V)
| OpDel (key : K)
| OpGetItem (key : K)
| OpIter
| OpGet (key : K) (default : option V)
| OpClear
| OpLru.

Definition run (o : op) (self : t) : t :=
  match o with
  | OpLen => snd (__len__ self)
  | OpContains key => snd (__contains__ key self)
  | OpSet key value => __setitem__ key value self
  | OpDel key => snd (__delitem__ key self)
  | OpGetItem key => snd (__getitem__ key self)
  | OpIter => snd (__iter__ self)
  | OpGet key default => snd (get key default self)
  | OpClear => clear self
  | OpLru => snd (lru self)
  end.

Definition run_all (os : list op) (self : t) : t :=
  fold_left (fun c o => run o c) os self.
End Defs.
Arguments t : clear implicits.
Arguments op : clear implicits.
End LRUCache.

(* ===================================================================== *)
(** ** [tinydb/table.py]: the data *)
(* ===================================================================== *)

(** The values a document holds; the table never looks inside them. *)
Inductive PyValue :=
| VNone
| VBool (b : bool)
| VInt (n : Z)
| VStr (s : string).

#[global] Instance PyValue_eq_dec : EqDecision PyValue.
Proof. solve_decision. Defined.

(** A [Mapping] with string keys: the content of a document. *)
Definition Content := list (string * PyValue).

(** [class Document(dict)]: [Document(value, doc_id)]. *)
Record Document := mkDocument {
  value : Content;
  doc_id : Z;
}.

(** What a caller can pass where a document is expected: something
    that is no mapping (and is neither callable nor iterable, like a
    number), a plain mapping, or a [Document]. [isinstance] tells them
    apart. *)
Inductive PyObj :=
| NotMapping
| PlainMapping (m : Content)
| IsDocument (d : Document).

Definition isinstance_Mapping (o : PyObj) : bool :=
  match o with NotMapping => false | _ => true end.

Definition isinstance_Document (o : PyObj) : bool :=
  match o with IsDocument _ => true | _ => false end.

(** [dict(document)] for a document that passed the [Mapping] check. *)
Definition dict_of (o : PyObj) : Content :=
  match o with
  | NotMapping => []
  | PlainMapping m => m
  | IsDocument d => value d
  end.

(** One table of the snapshot, [Dict[int, Mapping]], and the snapshot
    itself, a dictionary from table names to tables. *)
Definition Tbl := list (Z * Content).
Definition RawData := list (string * Tbl).

(** [QueryLike]: a predicate over a document's content that can be
    called and used as a dictionary key. *)
Class QueryLike (Q : Type) := {
  query_eq_dec :: EqDecision Q;
  query_call : Q -> Content -> bool;
}.

(** The [fields] argument of [update]: a mapping to merge, or a callable
    that changes the document it is given. *)
Inductive Fields :=
| FieldsMapping (m : Content)
| FieldsCallable (f : Content -> Content).

(** A list object holding documents. [oid] is its identity, so that the
    same list ([is]) can be told from an equal one. *)
Record PyList := mkPyList {
  oid : nat;
  items : list Document;
}.

Inductive Exception :=
| ValueError (msg : string)
| RuntimeError (msg : string)
| TypeError
| KeyErr.

Inductive Outcome (A : Type) :=
| Return (a : A)
| Raise (e : Exception).
Arguments Return {A} a.
Arguments Raise {A} e.

(** What a [get] returns: [None], one document, or a list of them. *)
Inductive GetResult :=
| GNone
| GDoc (d : Document)
| GDocs (ds : list Document).

(** What the program does to its collaborators: reads and writes of the
    storage, and calls of a query. *)
Inductive Event (Q : Type) :=
| EvRead
| EvWrite (raw : RawData)
| EvCond (cond : Q) (doc : Content).
Arguments EvRead {Q}.
Arguments EvWrite {Q} raw.
Arguments EvCond {Q} cond doc.

Definition is_write {Q} (e : Event Q) : bool :=
  match e with EvWrite _ => true | _ => false end.

(** Methods run in a state and exception monad over [self]: a method
    either returns or raises, and leaves a new [self] in both cases. *)
Module Py.
Definition M (S A : Type) : Type := S -> Outcome A * S.

Definition ret {S A} (a : A) : M S A := fun self => (Return a, self).
Definition raise {S A} (e : Exception) : M S A :=
  fun self => (Raise e, self).
Definition bind {S A B} (m : M S A) (k : A -> M S B) : M S B :=
  fun self =>
    match m self with
    | (Return a, self') => k a self'
    | (Raise e, self') => (Raise e, self')
    end.
End Py.

Declare Scope py_scope.
Delimit Scope py_scope with py.
Notation "'do' x <- m ; k" := (Py.bind m (fun x => k))
  (at level 10, x name, m at level 100, k at level 200,
   format "'[v' 'do'  x  <-  m ; '/' k ']'") : py_scope.
Notation "'do' ' p <- m ; k" :=
  (Py.bind m (fun x => match x with p => k end))
  (at level 10, p pattern, m at level 100, k at level 200) : py_scope.
Open Scope py_scope.

(* ===================================================================== *)
(** ** [tinydb/table.py]: class [Table] *)
(* ===================================================================== *)

Module Table.
Section Defs.
Context {Q : Type} `{QueryLike Q}.

(** A table instance together with the storage it talks to. The
    storage is taken to hold a value: [read()] returns a copy of what
    the last [write()] gave it, or [None] when nothing was written
    yet. *)
Record t := mk {
  _name : string;
  _query_cache : LRUCache.t Q PyList;
  _next_id : option Z;
  stored : option RawData;   (* what [self._storage] holds *)
  trace : list (Event Q);    (* what happened so far, oldest first *)
  fresh : nat;               (* identity of the next list object *)
}.

Local Abbreviation M := (Py.M t).

(** *** Attribute assignments and the collaborators *)

Definition set_next_id (n : option Z) : M unit := fun self =>
  (Return tt,
   {| _name := _name self; _query_cache := _query_cache self;
      _next_id := n; stored := stored self; trace := trace self;
      fresh := fresh self |}).

Definition set_query_cache (c : LRUCache.t Q PyList) : M unit := fun self =>
  (Return tt,
   {| _name := _name self; _query_cache := c;
      _next_id := _next_id self; stored := stored self;
      trace := trace self; fresh := fresh self |}).

(** [self] with [events] added to what happened. *)
Definition log (events : list (Event Q)) (self : t) : t :=
  {| _name := _name self; _query_cache := _query_cache self;
     _next_id := _next_id self; stored := stored self;
     trace := trace self ++ events; fresh := fresh self |}.

Definition emit (e : Event Q) : M unit := fun self =>
  (Return tt, log [e] self).

(** [self._storage.read()] *)
Definition storage_read : M (option RawData) := fun self =>
  (Return (stored self), log [EvRead] self).

(** [self._storage.write(raw_data)] *)
Definition storage_write (raw_data : RawData) : M unit := fun self =>
  (Return tt,
   {| _name := _name self; _query_cache := _query_cache self;
      _next_id := _next_id self; stored := Some raw_data;
      trace := trace self ++ [EvWrite raw_data]; fresh := fresh self |}).

(** [cond(doc)] *)
Definition call (cond : Q) (doc : Content) : M bool :=
  do _ <- emit (EvCond cond doc);
  Py.ret (query_call cond doc).

(** A list display or comprehension makes a new list object. *)
Definition new_list (ds : list Document) : M PyList := fun self =>
  (Return {| oid := fresh self; items := ds |},
   {| _name := _name self; _query_cache := _query_cache self;
      _next_id := _next_id self; stored := stored self;
      trace := trace self; fresh := S (fresh self) |}).

(** *** The methods *)

(** [__init__(self, storage, name, cache_size=10)], on a storage that
    holds [storage]. *)
Definition default_query_cache_capacity : nat := 10.

Definition __init__ (storage : option RawData) (name : string)
    (cache_size : option nat) : t :=
  {| _name := name;
     _query_cache := LRUCache.__init__ cache_size;
     _next_id := None;
     stored := storage;
     trace := [];
     fresh := 0 |}.

(** Every table of the snapshot is a dictionary here, so the branch
    for an entry that is not a [dict] has no counterpart. *)
Definition _read_table : M Tbl :=
  do raw_data <- storage_read;
  let raw_data := default [] raw_data in
  fun self =>
    Py.ret (default [] (ODict.get (_name self) raw_data)) self.

(** [updater] changes the table in place and may return something;
    here it returns the changed table next to its result. *)
Definition _update_table {A} (updater : Tbl -> M (A * Tbl)) : M A :=
  do raw_data <- storage_read;
  let raw_data := default [] raw_data in
  fun self =>
    let name := _name self in
    let table := default [] (ODict.get name raw_data) in
    (do '(result, table) <- updater table;
     do _ <- storage_write (ODict.set name table raw_data);
     Py.ret result) self.

Definition _get_next_id : M Z := fun self =>
  match _next_id self with
  | None =>
      (do table <- _read_table;
       let next_id :=
         match table with
         | [] => 1
         | (key, _) :: rest =>
             fold_left Z.max (ODict.keys rest) key + 1
         end in
       do _ <- set_next_id (Some next_id);
       Py.ret next_id) self
  | Some next_id =>
      (do _ <- set_next_id (Some (next_id + 1));
       Py.ret next_id) self
  end.

(** The query cache is an attribute of [self]. *)
Definition cache_contains (cond : Q) : M bool := fun self =>
  let '(b, c) := LRUCache.__contains__ cond (_query_cache self) in
  (do _ <- set_query_cache c; Py.ret b) self.

Definition cache_getitem (cond : Q) : M PyList := fun self =>
  match LRUCache.__getitem__ cond (_query_cache self) with
  | (inr docs, c) => (do _ <- set_query_cache c; Py.ret docs) self
  | (inl _, c) => (do _ <- set_query_cache c; Py.raise KeyErr) self
  end.

Definition cache_setitem (cond : Q) (docs : PyList) : M unit := fun self =>
  set_query_cache (LRUCache.__setitem__ cond docs (_query_cache self)) self.

Definition cache_clear : M unit := fun self =>
  set_query_cache (LRUCache.clear (_query_cache self)) self.

(** [insert(self, document)]. The name [document] is bound again to a
    plain [dict] when a [Document] comes in, and [updater] sees that
    binding. [final_doc_id] is the updater's result here. *)
Definition insert (document : PyObj) : M Z :=
  if negb (isinstance_Mapping document)
  then Py.raise (ValueError "Document is not a Mapping")
  else
    do '(doc_id, document) <-
      match document with
      | IsDocument d => Py.ret (doc_id d, PlainMapping (dict_of document))
      | _ => do doc_id <- _get_next_id; Py.ret (doc_id, document)
      end;
    let data := dict_of document in
    let updater (table : Tbl) : M (Z * Tbl) :=
      if ODict.mem doc_id table then
        if isinstance_Document document
        then Py.raise (ValueError "Document ID already exists")
        else
          do final_doc_id <- _get_next_id;
          Py.ret (final_doc_id, ODict.set final_doc_id data table)
      else Py.ret (doc_id, ODict.set doc_id data table) in
    do final_doc_id <- _update_table updater;
    do _ <- cache_clear;
    Py.ret final_doc_id.

(** The first loop of [insert_multiple]: check each document and give
    it an ID; the result is [data], whose first components are
    [doc_ids]. *)
Fixpoint insert_multiple_data (documents : list PyObj)
    : M (list (Z * Content)) :=
  match documents with
  | [] => Py.ret []
  | doc :: documents' =>
      if negb (isinstance_Mapping doc)
      then Py.raise (ValueError "Document is not a Mapping")
      else
        do doc_id <-
          match doc with
          | IsDocument d => Py.ret (doc_id d)
          | _ => _get_next_id
          end;
        do data <- insert_multiple_data documents';
        Py.ret ((doc_id, dict_of doc) :: data)
  end.

(** The loop of its [updater], over [documents] and [data] side by
    side; the result is [final_doc_ids] and the changed table. *)
Fixpoint insert_multiple_updater (documents : list PyObj)
    (data : list (Z * Content)) (table : Tbl) : M (list Z * Tbl) :=
  match documents, data with
  | document :: documents', (doc_id, doc) :: data' =>
      if ODict.mem doc_id table then
        if isinstance_Document document
        then Py.raise (ValueError "Document ID already exists")
        else
          do new_id <- _get_next_id;
          do '(ids, table) <-
            insert_multiple_updater documents' data'
              (ODict.set new_id doc table);
          Py.ret (new_id :: ids, table)
      else
        do '(ids, table) <-
          insert_multiple_updater documents' data'
            (ODict.set doc_id doc table);
        Py.ret (doc_id :: ids, table)
  | _, _ => Py.ret ([], table)
  end.

Definition insert_multiple (documents : list PyObj) : M (list Z) :=
  do _ <-
    match documents with
    | [doc] =>
        if negb (isinstance_Mapping doc)
        then Py.raise (ValueError "Document is not a Mapping")
        else Py.ret tt
    | _ => Py.ret tt
    end;
  do data <- insert_multiple_data documents;
  do final_doc_ids <- _update_table (insert_multiple_updater documents data);
  do _ <- cache_clear;
  Py.ret final_doc_ids.

Definition all : M (list Document) :=
  do table <- _read_table;
  Py.ret (map (fun item => mkDocument (snd item) (fst item)) table).

(** [[doc for doc in docs if cond(doc)]] *)
Fixpoint select (cond : Q) (docs : list Document) : M (list Document) :=
  match docs with
  | [] => Py.ret []
  | doc :: docs' =>
      do keep <- call cond (value doc);
      do rest <- select cond docs';
      Py.ret (if keep then doc :: rest else rest)
  end.

Definition search (cond : Q) : M PyList :=
  do hit <- cache_contains cond;
  if hit then cache_getitem cond
  else
    do everything <- all;
    do matching <- select cond everything;
    do docs <- new_list matching;
    do _ <- cache_setitem cond docs;
    Py.ret docs.

(** The loop of [get] over [doc_ids]: the documents found, in the order
    asked for. *)
Definition get_docs (doc_ids : list Z) (table : Tbl) : list Document :=
  flat_map (fun did =>
    match ODict.get did table with
    | Some doc => [mkDocument doc did]
    | None => []
    end) doc_ids.

Definition get (cond : option Q) (doc_id : option Z)
    (doc_ids : option (list Z)) : M GetResult :=
  match cond, doc_id, doc_ids with
  | None, None, None =>
      Py.raise (RuntimeError
        "Cannot get documents without a condition or document ID")
  | _, Some doc_id, _ =>
      do table <- _read_table;
      match ODict.get doc_id table with
      | Some doc => Py.ret (GDoc (mkDocument doc doc_id))
      | None => Py.ret GNone
      end
  | _, None, Some doc_ids =>
      do table <- _read_table;
      let docs := get_docs doc_ids table in
      Py.ret (match docs with [] => GNone | _ => GDocs docs end)
  | Some cond, None, None =>
      do docs <- search cond;
      Py.ret (match items docs with doc :: _ => GDoc doc | [] => GNone end)
  end.

(** [bool(x)] of what [get] returns; a [Document] is a [dict]. *)
Definition truthy (r : GetResult) : bool :=
  match r with
  | GNone => false
  | GDoc d => match value d with [] => false | _ => true end
  | GDocs ds => match ds with [] => false | _ => true end
  end.

Definition contains (cond : option Q) (doc_id : option Z) : M bool :=
  match cond, doc_id with
  | None, None =>
      Py.raise (RuntimeError
        "Cannot check for documents without a condition or document ID")
  | _, Some doc_id =>
      do table <- _read_table;
      Py.ret (ODict.mem doc_id table)
  | Some cond, None =>
      do r <- get (Some cond) None None;
      Py.ret (truthy r)
  end.

(** What [update] does to the document [doc] stored under [doc_id]:
    a callable gets a copy and the copy is stored; a mapping is merged
    into [table[doc_id]]. *)
Definition apply_fields (fields : Fields) (doc_id : Z) (doc : Content)
    (table : Tbl) : M Tbl :=
  match fields with
  | FieldsCallable f => Py.ret (ODict.set doc_id (f doc) table)
  | FieldsMapping m =>
      match ODict.get doc_id table with
      | Some stored_doc =>
          Py.ret (ODict.set doc_id (ODict.update stored_doc m) table)
      | None => Py.raise KeyErr
      end
  end.

Fixpoint update_by_ids (fields : Fields) (doc_ids : list Z) (table : Tbl)
    : M (list Z * Tbl) :=
  match doc_ids with
  | [] => Py.ret ([], table)
  | doc_id :: doc_ids' =>
      match ODict.get doc_id table with
      | Some doc =>
          do table <- apply_fields fields doc_id doc table;
          do '(updated_ids, table) <- update_by_ids fields doc_ids' table;
          Py.ret (doc_id :: updated_ids, table)
      | None => update_by_ids fields doc_ids' table
      end
  end.

(** The loop over [list(table.items())]. *)
Fixpoint update_by_cond (fields : Fields) (cond : option Q)
    (table_items : list (Z * Content)) (table : Tbl) : M (list Z * Tbl) :=
  match table_items with
  | [] => Py.ret ([], table)
  | (doc_id, doc) :: table_items' =>
      do selected <-
        match cond with
        | None => Py.ret true
        | Some cond => call cond doc
        end;
      if selected then
        do table <- apply_fields fields doc_id doc table;
        do '(updated_ids, table) <-
          update_by_cond fields cond table_items' table;
        Py.ret (doc_id :: updated_ids, table)
      else update_by_cond fields cond table_items' table
  end.

Definition update (fields : Fields) (cond : option Q)
    (doc_ids : option (list Z)) : M (list Z) :=
  let updater (table : Tbl) : M (list Z * Tbl) :=
    match doc_ids with
    | Some doc_ids => update_by_ids fields doc_ids table
    | None => update_by_cond fields cond table table
    end in
  do updated_ids <- _update_table updater;
  do _ <- cache_clear;
  Py.ret updated_ids.

Fixpoint update_multiple (updates : list (Fields * Q)) : M (list Z) :=
  match updates with
  | [] => Py.ret []
  | (fields, cond) :: updates' =>
      do ids <- update fields (Some cond) None;
      do updated_ids <- update_multiple updates';
      Py.ret (ids ++ updated_ids)
  end.

(** The loop of [update] over [list(table.items())] when [fields] is
    neither a mapping nor callable: [table[doc_id].update(fields)]
    raises [TypeError] at the first document that is selected. *)
Fixpoint update_by_cond_no_mapping (cond : option Q)
    (table_items : list (Z * Content)) (table : Tbl) : M (list Z * Tbl) :=
  match table_items with
  | [] => Py.ret ([], table)
  | (doc_id, doc) :: table_items' =>
      do selected <-
        match cond with
        | None => Py.ret true
        | Some cond => call cond doc
        end;
      if selected then Py.raise TypeError
      else update_by_cond_no_mapping cond table_items' table
  end.

(** [upsert(self, document, cond=None)]. The fields it hands to
    [update] are the document itself: its content when it is a
    mapping. *)
Definition upsert (document : PyObj) (cond : option Q) : M (list Z) :=
  match document with
  | IsDocument d =>
      let doc_id := doc_id d in
      do updated <- update (FieldsMapping (value d)) None (Some [doc_id]);
      match updated with
      | _ :: _ => Py.ret updated
      | [] =>
          let document := PlainMapping (dict_of document) in
          do id <- insert document;
          Py.ret [id]
      end
  | PlainMapping m =>
      do updated <- update (FieldsMapping m) cond None;
      match updated with
      | _ :: _ => Py.ret updated
      | [] => do id <- insert document; Py.ret [id]
      end
  | NotMapping =>
      do updated <-
        (do updated_ids <-
           _update_table
             (fun table => update_by_cond_no_mapping cond table table);
         do _ <- cache_clear;
         Py.ret updated_ids);
      match updated with
      | _ :: _ => Py.ret updated
      | [] => do id <- insert document; Py.ret [id]
      end
  end.

Fixpoint remove_by_ids (doc_ids : list Z) (table : Tbl) : list Z * Tbl :=
  match doc_ids with
  | [] => ([], table)
  | doc_id :: doc_ids' =>
      if ODict.mem doc_id table then
        let '(removed, table) :=
          remove_by_ids doc_ids' (ODict.del doc_id table) in
        (doc_id :: removed, table)
      else remove_by_ids doc_ids' table
  end.

Fixpoint remove_by_cond (cond : Q) (table_items : list (Z * Content))
    (table : Tbl) : M (list Z * Tbl) :=
  match table_items with
  | [] => Py.ret ([], table)
  | (doc_id, doc) :: table_items' =>
      do selected <- call cond doc;
      if selected then
        do '(removed, table) <-
          remove_by_cond cond table_items' (ODict.del doc_id table);
        Py.ret (doc_id :: removed, table)
      else remove_by_cond cond table_items' table
  end.

Definition remove (cond : option Q) (doc_ids : option (list Z))
    : M (list Z) :=
  match cond, doc_ids with
  | None, None =>
      Py.raise (RuntimeError
        "Cannot remove documents without a condition or document IDs")
  | _, _ =>
      let updater (table : Tbl) : M (list Z * Tbl) :=
        match doc_ids, cond with
        | Some doc_ids, _ => Py.ret (remove_by_ids doc_ids table)
        | None, Some cond => remove_by_cond cond table table
        | None, None => Py.ret ([], table)
        end in
      do removed_ids <- _update_table updater;
      do _ <- cache_clear;
      Py.ret removed_ids
  end.

Definition truncate : M unit :=
  let updater (table : Tbl) : M (list Z * Tbl) := Py.ret ([], []) in
  do _ <- _update_table updater;
  do _ <- cache_clear;
  set_next_id (Some 1).

Definition count (cond : Q) : M nat :=
  do docs <- search cond;
  Py.ret (length (items docs)).

Definition clear_cache : M unit := cache_clear.

Definition __len__ : M nat :=
  do table <- _read_table;
  Py.ret (length table).

(** *** Words for the properties *)

(** The table as the storage holds it now. *)
Definition stored_table (self : t) : Tbl :=
  default [] (ODict.get (_name self) (default [] (stored self))).

(** The documents [all] returns on [table]. *)
Definition documents_of (table : Tbl) : list Document :=
  map (fun item => mkDocument (snd item) (fst item)) table.

(** The list a search makes when its query is not in the cache. *)
Definition computed (cond : Q) (self : t) : PyList :=
  {| oid := fresh self;
     items := List.filter (fun doc => query_call cond (value doc))
                (documents_of (stored_table self)) |}.

(** What [update] leaves in the place of a selected document. *)
Definition updated_doc (fields : Fields) (doc : Content) : Content :=
  match fields with
  | FieldsMapping m => ODict.update doc m
  | FieldsCallable f => f doc
  end.

(** From [self] to [self'] the storage was read, and nothing else
    happened to the storage, the cache, or the list objects. *)
Definition only_reads (self self' : t) : Prop :=
  _name self' = _name self
  /\ _query_cache self' = _query_cache self
  /\ stored self' = stored self
  /\ fresh self' = fresh self
  /\ exists n, trace self' = trace self ++ repeat EvRead n.

(** Whenever [m] returns, it leaves the query cache empty. *)
Definition clears_cache {A} (m : M A) : Prop :=
  forall self,
    match m self with
    | (Return _, self') => LRUCache.cache (_query_cache self') = []
    | (Raise _, _) => True
    end.

(** The methods that change the table, and a call of one of them. *)
Inductive Mutation :=
| CallInsert (document : PyObj)
| CallInsertMultiple (documents : list PyObj)
| CallUpdate (fields : Fields) (cond : option Q) (doc_ids : option (list Z))
| CallRemove (cond : option Q) (doc_ids : option (list Z))
| CallTruncate.

Definition mutate (c : Mutation) : M unit :=
  match c with
  | CallInsert document => do _ <- insert document; Py.ret tt
  | CallInsertMultiple documents =>
      do _ <- insert_multiple documents; Py.ret tt
  | CallUpdate fields cond doc_ids =>
      do _ <- update fields cond doc_ids; Py.ret tt
  | CallRemove cond doc_ids => do _ <- remove cond doc_ids; Py.ret tt
  | CallTruncate => truncate
  end.

(** The methods that read the table, and a call of one of them. *)
Inductive Reading :=
| CallAll
| CallLen
| CallGet (cond : option Q) (doc_id : option Z) (doc_ids : option (list Z))
| CallContains (cond : option Q) (doc_id : option Z)
| CallCount (cond : Q)
| CallSearch (cond : Q).

Definition read (c : Reading) : M unit :=
  match c with
  | CallAll => do _ <- all; Py.ret tt
  | CallLen => do _ <- __len__; Py.ret tt
  | CallGet cond doc_id doc_ids => do _ <- get cond doc_id doc_ids; Py.ret tt
  | CallContains cond doc_id => do _ <- contains cond doc_id; Py.ret tt
  | CallCount cond => do _ <- count cond; Py.ret tt
  | CallSearch cond => do _ <- search cond; Py.ret tt
  end.

(** Several such calls one after the other; the caller goes on
    whether a call returned or raised. *)
Definition read_each (cs : list Reading) (self : t) : t :=
  fold_left (fun self c => snd (read c self)) cs self.

(** The query a call looks up in the query cache, when it does. *)
Definition searched (c : Reading) : option Q :=
  match c with
  | CallGet (Some cond) None None => Some cond
  | CallContains (Some cond) None => Some cond
  | CallCount cond => Some cond
  | CallSearch cond => Some cond
  | _ => None
  end.

(** The queries other than [cond] that the calls look up, each once. *)
Definition others (cond : Q) (cs : list Reading) : list Q :=
  remove_dups (filter (fun q => q <> cond) (omap searched cs)).
End Defs.
Arguments t : clear implicits.
Arguments Mutation : clear implicits.
Arguments Reading : clear implicits.
End Table.

(* ===================================================================== *)
(** ** Queries and states for the worked examples *)
(* ===================================================================== *)

(** [where(field) == v], and a query that every document matches. *)
Inductive ExQuery :=
| QEq (field : string) (v : PyValue)
| QAll.

#[global] Instance ExQuery_eq_dec : EqDecision ExQuery.
Proof. solve_decision. Defined.

#[global] Instance ExQuery_QueryLike : QueryLike ExQuery := {
  query_call q doc :=
    match q with
    | QEq field v => bool_decide (ODict.get field doc = Some v)
    | QAll => true
    end;
}.

(** A new table ["t"] on a storage that holds nothing yet. *)
Definition empty_table (cache_size : option nat) : Table.t ExQuery :=
  Table.__init__ None "t" cache_size.

(** A new table ["t"] on a storage that already holds [table] for it. *)
Definition table_on (table : Tbl) (cache_size : option nat)
    : Table.t ExQuery :=
  Table.__init__ (Some [("t"%string, table)]) "t" cache_size.

(** [{"x": n}] *)
Definition x_is (n : Z) : Content := [("x"%string, VInt n)].

(** Running one method after another, as long as they return. *)
Definition then_ {S A B} (r : Outcome A * S) (m : Py.M S B) : Outcome B * S :=
  match r with
  | (Return _, self) => m self
  | (Raise e, self) => (Raise e, self)
  end.

(* ===================================================================== *)
(** ** Dictionary lemmas *)
(* ===================================================================== *)

Section ODictFacts.
Context {K V : Type} `{EqDecision K}.
Implicit Types (k : K) (v : V) (d : list (K * V)).

Lemma get_del_same k d : ODict.get k (ODict.del k d) = None.
Proof.
  induction d as [|[k' v'] d IH]; simpl; [reflexivity|].
  destruct (decide (k = k')) as [->|Hne]; simpl; [exact IH|].
  destruct (decide (k = k')); [contradiction|exact IH].
Qed.

Lemma get_del_other k k' d :
  k <> k' -> ODict.get k' (ODict.del k d) = ODict.get k' d.
Proof.
  intros Hne. induction d as [|[k0 v0] d IH]; simpl; [reflexivity|].
  destruct (decide (k = k0)) as [->|Hk]; simpl.
  - destruct (decide (k' = k0)); [congruence|exact IH].
  - destruct (decide (k' = k0)); [reflexivity|exact IH].
Qed.

Lemma del_absent k d : ODict.get k d = None -> ODict.del k d = d.
Proof.
  induction d as [|[k' v'] d IH]; simpl; [reflexivity|].
  destruct (decide (k = k')); [discriminate|].
  intros Hg. now rewrite IH.
Qed.

Lemma get_app k d1 d2 :
  ODict.get k (d1 ++ d2) =
  match ODict.get k d1 with Some v => Some v | None => ODict.get k d2 end.
Proof.
  induction d1 as [|[k' v'] d1 IH]; simpl; [reflexivity|].
  destruct (decide (k = k')); [reflexivity|exact IH].
Qed.

Lemma del_app k d1 d2 :
  ODict.del k (d1 ++ d2) = ODict.del k d1 ++ ODict.del k d2.
Proof.
  induction d1 as [|[k' v'] d1 IH]; simpl; [reflexivity|].
  destruct (decide (k = k')); simpl; now rewrite IH.
Qed.

Lemma length_del k d : (length (ODict.del k d) <= length d)%nat.
Proof.
  induction d as [|[k' v'] d IH]; simpl; [lia|].
  destruct (decide (k = k')); simpl; lia.
Qed.

Lemma length_del_present k d :
  ODict.mem k d = true -> (length (ODict.del k d) < length d)%nat.
Proof.
  unfold ODict.mem.
  induction d as [|[k' v'] d IH]; simpl; [discriminate|].
  destruct (decide (k = k')); simpl.
  - intros _. pose proof (length_del k d). lia.
  - intros Hm. specialize (IH Hm). lia.
Qed.

Lemma keys_del k d :
  ODict.keys (ODict.del k d) =
  List.filter (fun k' => negb (bool_decide (k = k'))) (ODict.keys d).
Proof.
  induction d as [|[k' v'] d IH]; simpl; [reflexivity|].
  destruct (decide (k = k')) as [->|Hne].
  - rewrite bool_decide_eq_true_2 by reflexivity. simpl. exact IH.
  - rewrite bool_decide_eq_false_2 by assumption. simpl. now rewrite IH.
Qed.

Lemma get_set_same k v d : ODict.get k (ODict.set k v d) = Some v.
Proof.
  induction d as [|[k' v'] d IH]; simpl.
  - destruct (decide (k = k)); [reflexivity|contradiction].
  - destruct (decide (k = k')) as [->|Hne]; simpl.
    + destruct (decide (k' = k')); [reflexivity|contradiction].
    + destruct (decide (k = k')); [contradiction|exact IH].
Qed.

Lemma get_set_other k k' v d :
  k <> k' -> ODict.get k' (ODict.set k v d) = ODict.get k' d.
Proof.
  intros Hne. induction d as [|[k0 v0] d IH]; simpl.
  - destruct (decide (k' = k)); [congruence|reflexivity].
  - destruct (decide (k = k0)) as [->|Hk]; simpl.
    + destruct (decide (k' = k0)); [congruence|reflexivity].
    + destruct (decide (k' = k0)); [reflexivity|exact IH].
Qed.

Lemma get_absent_keys k d :
  ODict.get k d = None <-> ~ elem_of k (ODict.keys d).
Proof.
  induction d as [|[k' v'] d IH]; simpl.
  - split; [intros _ Hin; inversion Hin|reflexivity].
  - rewrite elem_of_cons. destruct (decide (k = k')) as [->|Hne]; simpl.
    + split; [discriminate|intros Hn; exfalso; apply Hn; now left].
    + rewrite IH. tauto.
Qed.

Lemma set_absent k v d :
  ODict.get k d = None -> ODict.set k v d = d ++ [(k, v)].
Proof.
  induction d as [|[k' v'] d IH]; simpl; [reflexivity|].
  destruct (decide (k = k')); [discriminate|].
  intros Hg. now rewrite IH.
Qed.
End ODictFacts.

(* ===================================================================== *)
(** ** The LRU cache *)
(* ===================================================================== *)

Section LRUFacts.
Context {K V : Type} `{EqDecision K}.
Implicit Types (self : LRUCache.t K V) (key : K) (value : V).

Lemma length_inserted key value self :
  (length (LRUCache.inserted key value self) <= S (length (LRUCache.cache self)))%nat.
Proof.
  unfold LRUCache.inserted. rewrite length_app. simpl.
  destruct (ODict.mem key (LRUCache.cache self)).
  - pose proof (length_del key (LRUCache.cache self)). lia.
  - lia.
Qed.

Lemma capacity_run (o : LRUCache.op K V) self :
  LRUCache.capacity (LRUCache.run o self) = LRUCache.capacity self.
Proof.
  destruct o; simpl; try reflexivity.
  - unfold LRUCache.__setitem__.
    destruct (LRUCache.capacity self) as [cap|] eqn:E; simpl; [|now rewrite ?E].
    destruct (cap <? _)%nat; simpl; now rewrite ?E.
  - unfold LRUCache.__delitem__.
    destruct (ODict.get key (LRUCache.cache self)); reflexivity.
  - unfold LRUCache.__getitem__.
    destruct (ODict.get key (LRUCache.cache self)); reflexivity.
  - unfold LRUCache.get, LRUCache.__getitem__.
    destruct (ODict.get key (LRUCache.cache self)); reflexivity.
Qed.

Lemma setitem_bound key value self n :
  LRUCache.capacity self = Some n ->
  (length (LRUCache.cache self) <= n)%nat ->
  (length (LRUCache.cache (LRUCache.__setitem__ key value self)) <= n)%nat.
Proof.
  intros Hcap Hlen. unfold LRUCache.__setitem__. rewrite Hcap.
  pose proof (length_inserted key value self) as Hins.
  cbv zeta. destruct (n <? _)%nat eqn:E; simpl.
  - unfold ODict.drop_first.
    destruct (LRUCache.inserted key value self) as [|e rest];
      simpl in *; lia.
  - apply Nat.ltb_ge in E. exact E.
Qed.

Lemma getitem_bound key self :
  (length (LRUCache.cache (snd (LRUCache.__getitem__ key self))) <=
   length (LRUCache.cache self))%nat.
Proof.
  unfold LRUCache.__getitem__.
  destruct (ODict.get key (LRUCache.cache self)) as [v|] eqn:E; simpl;
    [|lia].
  rewrite length_app. simpl.
  assert (Hm : ODict.mem key (LRUCache.cache self) = true)
    by (unfold ODict.mem; now rewrite E).
  apply length_del_present in Hm. lia.
Qed.

Lemma run_bound (o : LRUCache.op K V) self n :
  LRUCache.capacity self = Some n ->
  (length (LRUCache.cache self) <= n)%nat ->
  (length (LRUCache.cache (LRUCache.run o self)) <= n)%nat.
Proof.
  intros Hcap Hlen. destruct o; simpl; try exact Hlen.
  - now apply setitem_bound.
  - unfold LRUCache.__delitem__.
    destruct (ODict.get key (LRUCache.cache self)); simpl; [|exact Hlen].
    pose proof (length_del key (LRUCache.cache self)). lia.
  - pose proof (getitem_bound key self). lia.
  - pose proof (getitem_bound key self) as Hg. unfold LRUCache.get.
    destruct (LRUCache.__getitem__ key self) as [[e|v] self'];
      simpl in *; lia.
  - lia.
Qed.

Lemma run_all_bound (os : list (LRUCache.op K V)) self n :
  LRUCache.capacity self = Some n ->
  (length (LRUCache.cache self) <= n)%nat ->
  (length (LRUCache.cache (LRUCache.run_all os self)) <= n)%nat.
Proof.
  unfold LRUCache.run_all. revert self.
  induction os as [|o os IH]; intros self Hcap Hlen; simpl; [exact Hlen|].
  apply IH.
  - now rewrite capacity_run.
  - now apply run_bound.
Qed.

Lemma setitem_evicts_head key value self n :
  LRUCache.capacity self = Some n ->
  (n < length (LRUCache.inserted key value self))%nat ->
  exists evicted,
    LRUCache.inserted key value self =
    evicted :: LRUCache.cache (LRUCache.__setitem__ key value self).
Proof.
  intros Hcap Hover. unfold LRUCache.__setitem__. rewrite Hcap.
  cbv zeta.
  apply Nat.ltb_lt in Hover as Hb. rewrite Hb. simpl.
  destruct (LRUCache.inserted key value self) as [|e rest]; simpl in *; [lia|].
  now exists e.
Qed.

Lemma setitem_keeps key value self n :
  LRUCache.capacity self = Some n ->
  (length (LRUCache.inserted key value self) <= n)%nat ->
  LRUCache.cache (LRUCache.__setitem__ key value self) =
  LRUCache.inserted key value self.
Proof.
  intros Hcap Hfit. unfold LRUCache.__setitem__. rewrite Hcap.
  cbv zeta.
  apply Nat.ltb_ge in Hfit as Hb. now rewrite Hb.
Qed.
End LRUFacts.

(** C6. In a cache with a capacity [n], whatever operations are run on
    it from its creation, there are never more than [n] entries; one
    operation keeps that bound from any state that meets it; a
    [__setitem__] that brings the entries above [n] drops exactly one of
    them, the first in the order, which is the least recently used one,
    and leaves [n] entries; and with capacity 2, after set(a,1),
    set(b,2), get(a), set(c,3) the keys are a and c. *)
Theorem C6_capacity_bound_and_eviction :
  (forall (K V : Type) `(EqDecision K) (n : nat) (os : list (LRUCache.op K V)),
      (length (LRUCache.cache
                 (LRUCache.run_all os (LRUCache.__init__ (Some n)))) <= n)%nat)
  /\ (forall (K V : Type) `(EqDecision K) (self : LRUCache.t K V) (n : nat)
        (o : LRUCache.op K V),
      LRUCache.capacity self = Some n ->
      (length (LRUCache.cache self) <= n)%nat ->
      (length (LRUCache.cache (LRUCache.run o self)) <= n)%nat)
  /\ (forall (K V : Type) `(EqDecision K) (self : LRUCache.t K V) (n : nat)
        (key : K) (val : V),
      LRUCache.capacity self = Some n ->
      (length (LRUCache.cache self) <= n)%nat ->
      (n < length (LRUCache.inserted key val self))%nat ->
      (exists evicted,
          LRUCache.inserted key val self =
          evicted :: LRUCache.cache (LRUCache.__setitem__ key val self))
      /\ length (LRUCache.cache (LRUCache.__setitem__ key val self)) = n)
  /\ fst (LRUCache.lru
            (LRUCache.run_all
               [LRUCache.OpSet "a" 1; LRUCache.OpSet "b" 2;
                LRUCache.OpGetItem "a"; LRUCache.OpSet "c" 3]
               (LRUCache.__init__ (Some 2%nat))))
     = ["a"; "c"]%string.
Proof.
  split; [|split; [|split]].
  - intros K V HK n os. apply run_all_bound; simpl; [reflexivity|lia].
  - intros K V HK self n o. apply run_bound.
  - intros K V HK self n key val Hcap Hlen Hover.
    destruct (setitem_evicts_head key val self n Hcap Hover) as [e He].
    split; [now exists e|].
    pose proof (length_inserted key val self) as Hins.
    apply (f_equal (@length _)) in He. simpl in He. lia.
  - reflexivity.
Qed.

(** The bound and the eviction at work: a full cache of capacity 1
    receives a new key. *)
Lemma C6_witness :
  let self := LRUCache.mk (Some 1%nat) [("a"%string, 1)] in
  (length (LRUCache.cache (LRUCache.run (LRUCache.OpSet "b"%string 2%Z) self))
   <= 1)%nat
  /\ (exists evicted,
        LRUCache.inserted "b"%string 2 self =
        evicted :: LRUCache.cache (LRUCache.__setitem__ "b"%string 2 self))
  /\ length (LRUCache.cache (LRUCache.__setitem__ "b"%string 2 self)) = 1%nat.
Proof.
  split.
  - apply (proj1 (proj2 C6_capacity_bound_and_eviction)
             string Z _ (LRUCache.mk (Some 1%nat) [("a"%string, 1)]) 1%nat
             (LRUCache.OpSet "b"%string 2)).
    + reflexivity.
    + simpl. lia.
  - apply (proj1 (proj2 (proj2 C6_capacity_bound_and_eviction))
             string Z _ (LRUCache.mk (Some 1%nat) [("a"%string, 1)]) 1%nat
             "b"%string 2).
    + reflexivity.
    + simpl. lia.
    + vm_compute. lia.
Defined.

Section LRUOrder.
Context {K V : Type} `{EqDecision K}.
Implicit Types (self : LRUCache.t K V) (key : K).

Lemma contains_spec key self :
  fst (LRUCache.__contains__ key self) = true <->
  elem_of key (ODict.keys (LRUCache.cache self)).
Proof.
  simpl. unfold ODict.mem.
  pose proof (get_absent_keys key (LRUCache.cache self)) as Habs.
  destruct (ODict.get key (LRUCache.cache self)) as [v|].
  - split; [intros _|reflexivity].
    destruct (decide (elem_of key (ODict.keys (LRUCache.cache self))))
      as [Hin|Hout]; [exact Hin|].
    apply Habs in Hout. discriminate.
  - split; [discriminate|]. intros Hin.
    destruct (proj1 Habs eq_refl Hin).
Qed.

Lemma promoted_lookup key (val : V) (d : list (K * V)) k' :
  ODict.get key d = Some val ->
  ODict.get k' (ODict.del key d ++ [(key, val)]) = ODict.get k' d.
Proof.
  intros Hget. rewrite get_app.
  destruct (decide (key = k')) as [<-|Hne].
  - rewrite get_del_same. simpl.
    destruct (decide (key = key)); [now rewrite Hget|contradiction].
  - rewrite (get_del_other key k' d Hne).
    destruct (ODict.get k' d); [reflexivity|]. simpl.
    destruct (decide (k' = key)); [congruence|reflexivity].
Qed.
End LRUOrder.

(** C7. [__contains__] answers whether the key is in the cache and
    returns the cache as it was, contents and order; [__getitem__] of a
    key that is there returns its value and moves the key to the end of
    the order, the most recently used place, while the other keys keep
    their order and every key keeps its value. *)
Theorem C7_contains_is_pure_getitem_promotes :
  (forall (K V : Type) `(EqDecision K) (self : LRUCache.t K V) (key : K),
      snd (LRUCache.__contains__ key self) = self
      /\ (fst (LRUCache.__contains__ key self) = true <->
          elem_of key (ODict.keys (LRUCache.cache self))))
  /\ (forall (K V : Type) `(EqDecision K) (self : LRUCache.t K V) (key : K)
        (val : V),
      ODict.get key (LRUCache.cache self) = Some val ->
      exists self',
        LRUCache.__getitem__ key self = (inr val, self')
        /\ LRUCache.capacity self' = LRUCache.capacity self
        /\ last (LRUCache.cache self') = Some (key, val)
        /\ ODict.keys (LRUCache.cache self') =
           List.filter (fun k => negb (bool_decide (key = k)))
             (ODict.keys (LRUCache.cache self)) ++ [key]
        /\ (forall k, ODict.get k (LRUCache.cache self') =
                      ODict.get k (LRUCache.cache self))).
Proof.
  split.
  - intros K V HK self key. split; [reflexivity|apply contains_spec].
  - intros K V HK self key val Hget.
    unfold LRUCache.__getitem__. rewrite Hget.
    eexists. split; [reflexivity|]. simpl.
    split; [reflexivity|]. split; [apply last_snoc|]. split.
    + unfold ODict.keys at 1. rewrite map_app. simpl.
      fold (ODict.keys (ODict.del key (LRUCache.cache self))).
      now rewrite keys_del.
    + intros k. now apply promoted_lookup.
Qed.

(** The key [a] of the cache [a, b] is read: it moves behind [b]. *)
Lemma C7_witness :
  exists self',
    LRUCache.__getitem__ "a"%string
      (LRUCache.mk (Some 2%nat) [("a"%string, 1); ("b"%string, 2)])
    = (inr 1, self')
    /\ ODict.keys (LRUCache.cache self') = ["b"; "a"]%string.
Proof.
  destruct (proj2 C7_contains_is_pure_getitem_promotes string Z _
              (LRUCache.mk (Some 2%nat) [("a"%string, 1); ("b"%string, 2)])
              "a"%string 1)
    as (self' & Hget & _ & _ & Hkeys & _).
  - vm_compute. reflexivity.
  - exists self'. split; [exact Hget|]. rewrite Hkeys. reflexivity.
Defined.

(* ===================================================================== *)
(** ** Inserting: explicit IDs and allocated IDs *)
(* ===================================================================== *)

(** Unfolds the monad and the attribute accesses, so that a method
    applied to a table given by its fields computes. *)
Ltac run_py :=
  unfold Table._update_table, Table._read_table, Table._get_next_id,
    Table.cache_clear, Table.cache_contains, Table.cache_getitem,
    Table.cache_setitem, Table.call, Table.emit, Table.new_list,
    Table.storage_read, Table.storage_write, Table.set_query_cache,
    Table.set_next_id, Table.log, Py.bind, Py.ret, Py.raise;
  simpl.

(** C1. On a table that holds a document under ID 1, [insert] of
    [Document({"x": 1}, doc_id=1)] does not raise: it returns 2 and
    stores the document under 2, because [updater] tests the name
    [document] after it was bound to a plain [dict]. [insert_multiple]
    of the same document raises "Document ID already exists" and writes
    nothing. On every table, [insert] of a [Document] returns an ID,
    whatever the table holds. *)
Theorem C1_insert_reassigns_a_duplicate_explicit_id :
  (let self := table_on [(1, x_is 0)] (Some 10%nat) in
   let document := IsDocument (mkDocument (x_is 1) 1) in
   fst (Table.insert document self) = Return 2
   /\ Table.stored_table (snd (Table.insert document self))
      = [(1, x_is 0); (2, x_is 1)]
   /\ fst (Table.insert_multiple [document] self)
      = Raise (ValueError "Document ID already exists")
   /\ Table.stored_table (snd (Table.insert_multiple [document] self))
      = [(1, x_is 0)])
  /\ (forall (Q : Type) `(QueryLike Q) (self : Table.t Q) (d : Document),
      exists final_doc_id,
        fst (Table.insert (IsDocument d) self) = Return final_doc_id).
Proof.
  split.
  - vm_compute. repeat split; reflexivity.
  - intros Q HQ [name qc nid st tr fr] d.
    unfold Table.insert. run_py.
    destruct (ODict.mem (doc_id d) _); simpl; [|now eexists].
    destruct nid; simpl; now eexists.
Qed.

(** C2. On a new table over an empty storage,
    [upsert(Document({"x": 1}, doc_id=5))] returns [[1]] and stores the
    document under ID 1: the document is turned into a plain [dict]
    before [insert] sees it, so its ID is lost. No document has ID 5
    afterwards, and a second [upsert] with [{"x": 2}] and ID 5 stores
    one more document, under ID 2, where an update in place was
    expected. *)
Theorem C2_upsert_drops_the_explicit_id :
  let self := empty_table (Some 10%nat) in
  let first := Table.upsert (IsDocument (mkDocument (x_is 1) 5)) None self in
  let second :=
    then_ first (Table.upsert (IsDocument (mkDocument (x_is 2) 5)) None) in
  fst first = Return [1]
  /\ Table.stored_table (snd first) = [(1, x_is 1)]
  /\ ODict.get 5 (Table.stored_table (snd first)) = None
  /\ fst second = Return [2]
  /\ Table.stored_table (snd second) = [(1, x_is 1); (2, x_is 2)].
Proof. vm_compute. repeat split; reflexivity. Qed.

(** C3. On a new table over an empty storage, [insert_multiple] of three
    plain mappings returns the IDs [[1; 3; 2]], which are not in
    increasing order: the second document is given 1 again and moved to
    the next cursor value, 3, when the table is written. The cause is in
    [_get_next_id]: on every table whose cursor is unset, it leaves the
    cursor on the ID it returns, so that two calls in a row return the
    same ID. *)
Theorem C3_insert_multiple_ids_not_increasing :
  (let self := empty_table (Some 10%nat) in
   let batch := [PlainMapping (x_is 1); PlainMapping (x_is 2);
                 PlainMapping (x_is 3)] in
   fst (Table.insert_multiple batch self) = Return [1; 3; 2]
   /\ Table.stored_table (snd (Table.insert_multiple batch self))
      = [(1, x_is 1); (3, x_is 2); (2, x_is 3)])
  /\ (forall (Q : Type) `(QueryLike Q) name query_cache storage events n,
      let self : Table.t Q :=
        Table.mk name query_cache None storage events n in
      exists next_id,
        fst (Table._get_next_id self) = Return next_id
        /\ Table._next_id (snd (Table._get_next_id self)) = Some next_id
        /\ fst (Table._get_next_id (snd (Table._get_next_id self)))
           = Return next_id).
Proof.
  split.
  - vm_compute. split; reflexivity.
  - intros Q HQ name qc st tr fr self. subst self. run_py.
    eexists. repeat split.
Qed.

(* ===================================================================== *)
(** ** Running methods on an arbitrary table *)
(* ===================================================================== *)

(** C4. [truncate] returns on every table; afterwards the storage holds
    an empty table under this name and the other tables as before, the
    query cache is empty, and the ID cursor is 1 (it is not unset). An
    [insert] of a plain mapping right after it returns ID 1 and reads
    the storage once, for the write: the cursor's value is used as it
    is. *)
Theorem C4_truncate_then_insert_gets_1 :
  forall (Q : Type) `(QueryLike Q) (self : Table.t Q) (m : Content),
  let self1 := snd (Table.truncate self) in
  let self2 := snd (Table.insert (PlainMapping m) self1) in
  fst (Table.truncate self) = Return tt
  /\ Table.stored_table self1 = []
  /\ (forall other, Table._name self <> other ->
        ODict.get other (default [] (Table.stored self1)) =
        ODict.get other (default [] (Table.stored self)))
  /\ LRUCache.cache (Table._query_cache self1) = []
  /\ Table._next_id self1 = Some 1
  /\ fst (Table.insert (PlainMapping m) self1) = Return 1
  /\ Table.stored_table self2 = [(1, m)]
  /\ exists raw, Table.trace self2 = Table.trace self1 ++ [EvRead; EvWrite raw].
Proof.
  intros Q HQ [name qc nid st tr fr] m.
  unfold Table.truncate, Table.insert, Table.stored_table. run_py.
  rewrite !get_set_same. simpl. rewrite !get_set_same. simpl.
  repeat split.
  - intros other Hne. now apply get_set_other.
  - eexists. rewrite <- app_assoc. reflexivity.
Qed.

(** A table with two documents, next to another table of the same
    storage: [truncate] empties the one, keeps the other, and the next
    [insert] gets ID 1. *)
Lemma C4_witness :
  let self : Table.t ExQuery :=
    Table.__init__
      (Some [("t"%string, [(1, x_is 1); (2, x_is 2)]);
             ("u"%string, [(7, x_is 7)])])
      "t" (Some 10%nat) in
  let self1 := snd (Table.truncate self) in
  Table.stored_table self1 = []
  /\ ODict.get "u"%string (default [] (Table.stored self1))
     = Some [(7, x_is 7)]
  /\ fst (Table.insert (PlainMapping (x_is 3)) self1) = Return 1.
Proof.
  destruct (C4_truncate_then_insert_gets_1 ExQuery _
              (Table.__init__
                 (Some [("t"%string, [(1, x_is 1); (2, x_is 2)]);
                        ("u"%string, [(7, x_is 7)])])
                 "t" (Some 10%nat))
              (x_is 3))
    as (_ & Hempty & Hothers & _ & _ & Hid & _).
  cbv zeta. split; [exact Hempty|]. split; [|exact Hid].
  rewrite (Hothers "u"%string); [reflexivity|].
  vm_compute. discriminate.
Defined.

(** After [truncate] the cursor is set, whatever the table held. *)
Lemma C4_counterexample :
  Table._next_id
    (snd (Table.truncate (table_on [(1, x_is 1)] (Some 10%nat))))
  <> None.
Proof. vm_compute. discriminate. Qed.

(* ===================================================================== *)
(** ** Reading by a list of IDs *)
(* ===================================================================== *)

Lemma get_docs_elem (doc_ids : list Z) (table : Tbl) (d : Document) :
  elem_of d (Table.get_docs doc_ids table) <->
  elem_of (doc_id d) doc_ids /\ ODict.get (doc_id d) table = Some (value d).
Proof.
  unfold Table.get_docs. induction doc_ids as [|did rest IH]; simpl.
  - split; [intros Hin; inversion Hin|intros [Hin _]; inversion Hin].
  - rewrite elem_of_app, IH, elem_of_cons. clear IH.
    destruct (ODict.get did table) as [doc|] eqn:E.
    + rewrite list_elem_of_singleton. split.
      * intros [->|[Hin Hg]]; simpl; [now split; [left|]|now split; [right|]].
      * intros [[Heq|Hin] Hg]; [left|right; now split].
        destruct d as [v i]; simpl in *; subst. congruence.
    + split.
      * intros [Hin|[Hin Hg]]; [inversion Hin|now split; [right|]].
      * intros [[Heq|Hin] Hg]; [congruence|right; now split].
Qed.

Lemma get_docs_ids (doc_ids : list Z) (table : Tbl) :
  map doc_id (Table.get_docs doc_ids table) =
  List.filter (fun did => ODict.mem did table) doc_ids.
Proof.
  unfold Table.get_docs, ODict.mem.
  induction doc_ids as [|did rest IH]; simpl; [reflexivity|].
  destruct (ODict.get did table); simpl; now rewrite IH.
Qed.

Lemma get_docs_nil (doc_ids : list Z) (table : Tbl) :
  Table.get_docs doc_ids table = [] <->
  forall did, elem_of did doc_ids -> ODict.get did table = None.
Proof.
  unfold Table.get_docs. induction doc_ids as [|did rest IH]; simpl.
  - split; [intros _ did Hin; inversion Hin|reflexivity].
  - destruct (ODict.get did table) as [doc|] eqn:E; simpl.
    + split; [discriminate|]. intros Hall.
      specialize (Hall did (list_elem_of_here _ _)). congruence.
    + rewrite IH. split.
      * intros Hall d' Hin. apply elem_of_cons in Hin as [->|Hin]; auto.
      * intros Hall d' Hin. apply Hall. now apply list_elem_of_further.
Qed.

(** C9. [get] with a list of IDs (and no single ID) reads the storage
    once and changes nothing else. When at least one of the IDs is in
    the table it returns the list of the documents found, in the order
    asked for, each with its ID and the content stored under it. When
    none is, it returns [None]; this is also what it returns for the
    empty list, so a request without a match and an empty request give
    the same result. *)
Theorem C9_get_by_ids_found_or_none :
  forall (Q : Type) `(QueryLike Q) (self : Table.t Q) (cond : option Q)
    (doc_ids : list Z),
  let table := Table.stored_table self in
  let found := Table.get_docs doc_ids table in
  let r := Table.get cond None (Some doc_ids) self in
  fst r = Return (match found with [] => GNone | _ => GDocs found end)
  /\ snd r = Table.log [EvRead] self
  /\ (forall d, elem_of d found <->
        elem_of (doc_id d) doc_ids /\
        ODict.get (doc_id d) table = Some (value d))
  /\ map doc_id found = List.filter (fun did => ODict.mem did table) doc_ids
  /\ (fst r = Return GNone <->
      forall did, elem_of did doc_ids -> ODict.get did table = None)
  /\ fst (Table.get cond None (Some []) self) = Return GNone.
Proof.
  intros Q HQ self cond doc_ids table found r.
  assert (Hr : r = (Return (match found with [] => GNone | _ => GDocs found end),
                    Table.log [EvRead] self)).
  { subst r found table. unfold Table.get, Table.stored_table.
    destruct cond; run_py; reflexivity. }
  rewrite Hr. simpl.
  split; [reflexivity|]. split; [reflexivity|].
  split; [apply get_docs_elem|]. split; [apply get_docs_ids|]. split.
  - rewrite <- (get_docs_nil doc_ids table). fold found.
    destruct found; split; congruence.
  - destruct cond; reflexivity.
Qed.

(** On a table that holds ID 1 and ID 2, asking for 2, 7 and 1 gives the
    documents 2 and 1. *)
Lemma C9_witness :
  fst (Table.get None None (Some [2; 7; 1])
         (table_on [(1, x_is 10); (2, x_is 20)] (Some 10%nat)))
  = Return (GDocs [mkDocument (x_is 20) 2; mkDocument (x_is 10) 1]).
Proof.
  rewrite (proj1 (C9_get_by_ids_found_or_none ExQuery _
             (table_on [(1, x_is 10); (2, x_is 20)] (Some 10%nat))
             None [2; 7; 1])).
  vm_compute. reflexivity.
Defined.

(** The empty request and a request for an ID that is not there are
    answered alike. *)
Lemma C9_counterexample :
  let self := table_on [(1, x_is 10)] (Some 10%nat) in
  ~ (fst (Table.get None None (Some []) self)
     <> fst (Table.get None None (Some [999]) self)).
Proof. vm_compute. intros Hne. apply Hne. reflexivity. Qed.

(* ===================================================================== *)
(** ** Updating without a condition *)
(* ===================================================================== *)

Lemma set_in_place {K V : Type} `{EqDecision K} (k : K) (v v0 : V)
    (d1 d2 : list (K * V)) :
  ODict.get k d1 = None ->
  ODict.set k v (d1 ++ (k, v0) :: d2) = d1 ++ (k, v) :: d2.
Proof.
  induction d1 as [|[k' v'] d1 IH]; simpl.
  - intros _. destruct (decide (k = k)); [reflexivity|contradiction].
  - destruct (decide (k = k')); [discriminate|].
    intros Hg. now rewrite IH.
Qed.

Lemma keys_map_snd {K V : Type} (f : V -> V) (d : list (K * V)) :
  ODict.keys (map (fun item => (fst item, f (snd item))) d) = ODict.keys d.
Proof.
  unfold ODict.keys. rewrite map_map. simpl. reflexivity.
Qed.

Section UpdateAll.
Context {Q : Type} `{QueryLike Q}.
Variable fields : Fields.

Let upd (item : Z * Content) : Z * Content :=
  (fst item, Table.updated_doc fields (snd item)).

Lemma apply_fields_in_place (doc_id : Z) (doc : Content) (done rest : Tbl)
    (self : Table.t Q) :
  ODict.get doc_id done = None ->
  Table.apply_fields fields doc_id doc (done ++ (doc_id, doc) :: rest) self =
  (Return (done ++ upd (doc_id, doc) :: rest), self).
Proof.
  intros Habs. unfold Table.apply_fields, upd, Table.updated_doc. simpl.
  destruct fields as [m|f].
  - rewrite get_app, Habs. simpl.
    destruct (decide (doc_id = doc_id)); [|contradiction].
    now rewrite set_in_place.
  - now rewrite set_in_place.
Qed.

(** The loop of [update] without a condition, when it has gone through
    [done] and still has [todo] before it. *)
Lemma update_by_cond_all (todo done : Tbl) (self : Table.t Q) :
  ODict.wf (done ++ todo) ->
  Table.update_by_cond fields None todo (map upd done ++ todo) self =
  (Return (ODict.keys todo, map upd done ++ map upd todo), self).
Proof.
  revert done. induction todo as [|[doc_id doc] todo IH]; intros done Hwf.
  - reflexivity.
  - simpl. unfold Py.bind at 1. simpl.
    assert (Habs : ODict.get doc_id (map upd done) = None).
    { apply get_absent_keys. unfold upd. rewrite keys_map_snd.
      unfold ODict.wf, ODict.keys in Hwf. rewrite map_app in Hwf. simpl in Hwf.
      apply NoDup_app in Hwf as (_ & Hdisj & _).
      intros Hin. apply (Hdisj _ Hin). now left. }
    unfold Py.bind at 1. rewrite (apply_fields_in_place _ _ _ _ _ Habs).
    specialize (IH (done ++ [(doc_id, doc)])).
    rewrite map_app in IH. simpl in IH. rewrite <- !app_assoc in IH.
    simpl in IH. unfold Py.bind. rewrite IH; [reflexivity|exact Hwf].
Qed.
End UpdateAll.

(** C10. [update] with fields and with neither a condition nor IDs
    returns on every table whose dictionary is well formed; it returns
    the IDs of all documents, in the table's order, leaves every
    document changed by the fields (the mapping merged into it, or the
    callable applied to it) under its ID and in its place, writes the
    table and clears the query cache. *)
Theorem C10_update_without_criteria_updates_all :
  forall (Q : Type) `(QueryLike Q) (self : Table.t Q) (fields : Fields),
  ODict.wf (Table.stored_table self) ->
  let r := Table.update fields None None self in
  fst r = Return (ODict.keys (Table.stored_table self))
  /\ Table.stored_table (snd r) =
     map (fun item => (fst item, Table.updated_doc fields (snd item)))
       (Table.stored_table self)
  /\ LRUCache.cache (Table._query_cache (snd r)) = []
  /\ exists raw, Table.trace (snd r) = Table.trace self ++ [EvRead; EvWrite raw].
Proof.
  intros Q HQ [name qc nid st tr fr] fields Hwf r.
  unfold Table.stored_table in *. simpl in *.
  set (table := default [] (ODict.get name (default [] st))) in *.
  set (table' :=
         map (fun item => (fst item, Table.updated_doc fields (snd item)))
           table).
  assert (Hr : r =
    (Return (ODict.keys table),
     Table.mk name (LRUCache.clear qc) nid
       (Some (ODict.set name table' (default [] st)))
       ((tr ++ [EvRead]) ++ [EvWrite (ODict.set name table' (default [] st))])
       fr)).
  { subst r. unfold Table.update, Table._update_table, Table.storage_read.
    unfold Py.bind at 1 2. simpl. unfold Py.bind at 1. fold table.
    pose proof (update_by_cond_all fields table []) as Hloop.
    simpl in Hloop. rewrite Hloop by exact Hwf. reflexivity. }
  rewrite Hr. simpl. rewrite get_set_same. simpl. repeat split.
  eexists. rewrite <- app_assoc. reflexivity.
Qed.

(** On a table with two documents, merging [{"x": 0}] into everything. *)
Lemma C10_witness :
  let self := table_on [(1, x_is 10); (2, x_is 20)] (Some 10%nat) in
  let r := Table.update (FieldsMapping (x_is 0)) None None self in
  fst r = Return [1; 2]
  /\ Table.stored_table (snd r) = [(1, x_is 0); (2, x_is 0)].
Proof.
  destruct (C10_update_without_criteria_updates_all ExQuery _
              (table_on [(1, x_is 10); (2, x_is 20)] (Some 10%nat))
              (FieldsMapping (x_is 0)))
    as (Hret & Hstored & _).
  - apply (bool_decide_unpack _). vm_compute. exact I.
  - cbv zeta. split; [exact Hret|]. rewrite Hstored. reflexivity.
Defined.

(* ===================================================================== *)
(** ** A batch with something that is not a mapping *)
(* ===================================================================== *)

Section BatchValidation.
Context {Q : Type} `{QueryLike Q}.
Implicit Types (self : Table.t Q).

Lemma only_reads_refl self : Table.only_reads self self.
Proof.
  repeat split. exists 0%nat. simpl. now rewrite app_nil_r.
Qed.

Lemma only_reads_trans self1 self2 self3 :
  Table.only_reads self1 self2 -> Table.only_reads self2 self3 ->
  Table.only_reads self1 self3.
Proof.
  intros (Hn & Hc & Hs & Hf & n & Ht) (Hn' & Hc' & Hs' & Hf' & n' & Ht').
  repeat split; try congruence.
  exists (n + n')%nat. rewrite Ht', Ht, repeat_app. now rewrite app_assoc.
Qed.

Lemma only_reads_no_write self self' :
  Table.only_reads self self' ->
  List.filter is_write (Table.trace self') =
  List.filter is_write (Table.trace self).
Proof.
  intros (_ & _ & _ & _ & n & Ht). rewrite Ht, List.filter_app.
  assert (Hnone : List.filter is_write (repeat (@EvRead Q) n) = []).
  { clear Ht. induction n as [|n IH]; simpl; [reflexivity|exact IH]. }
  rewrite Hnone. apply app_nil_r.
Qed.

Lemma get_next_id_only_reads self :
  (exists next_id, fst (Table._get_next_id self) = Return next_id)
  /\ Table.only_reads self (snd (Table._get_next_id self)).
Proof.
  destruct self as [name qc [next_id|] st tr fr]; run_py.
  - split; [now eexists|]. repeat split. exists 0%nat. simpl.
    now rewrite app_nil_r.
  - split; [now eexists|]. repeat split. now exists 1%nat.
Qed.

(** The first loop of [insert_multiple] stops at the first document
    that is not a mapping, and until then it has only read. *)
Lemma insert_multiple_data_only_reads (documents : list PyObj) self :
  Table.only_reads self (snd (Table.insert_multiple_data documents self)).
Proof.
  revert self. induction documents as [|doc documents IH]; intros self.
  - apply only_reads_refl.
  - simpl. destruct doc as [|m|d]; simpl.
    + apply only_reads_refl.
    + unfold Py.bind at 1.
      destruct (get_next_id_only_reads self) as [[next_id Hid] Hro].
      destruct (Table._get_next_id self) as [o self1]. simpl in Hid, Hro.
      subst o. unfold Py.bind. specialize (IH self1).
      destruct (Table.insert_multiple_data documents self1) as [[data|e] self2];
        simpl in *; now apply only_reads_trans with self1.
    + unfold Py.bind, Py.ret. specialize (IH self).
      destruct (Table.insert_multiple_data documents self) as [[data|e] self2];
        simpl in *; exact IH.
Qed.

Lemma insert_multiple_data_raises (documents : list PyObj) self :
  elem_of NotMapping documents ->
  fst (Table.insert_multiple_data documents self) =
  Raise (ValueError "Document is not a Mapping").
Proof.
  revert self. induction documents as [|doc documents IH]; intros self Hin.
  - inversion Hin.
  - apply elem_of_cons in Hin. simpl. destruct doc as [|m|d]; simpl.
    + reflexivity.
    + destruct Hin as [Heq|Hin]; [discriminate|].
      unfold Py.bind at 1.
      destruct (get_next_id_only_reads self) as [[next_id Hid] _].
      destruct (Table._get_next_id self) as [o self1]. simpl in Hid. subst o.
      unfold Py.bind. specialize (IH self1 Hin).
      destruct (Table.insert_multiple_data documents self1) as [[data|e] self2];
        simpl in *; congruence.
    + destruct Hin as [Heq|Hin]; [discriminate|].
      unfold Py.bind, Py.ret. specialize (IH self Hin).
      destruct (Table.insert_multiple_data documents self) as [[data|e] self2];
        simpl in *; congruence.
Qed.
End BatchValidation.

(** C8. When a batch holds a document that is not a mapping, alone or
    among others, [insert_multiple] raises "Document is not a Mapping";
    up to then it has only read the storage: nothing was written, the
    storage holds what it held, and the query cache is as it was. *)
Theorem C8_insert_multiple_rejects_before_writing :
  forall (Q : Type) `(QueryLike Q) (self : Table.t Q)
    (documents : list PyObj),
  elem_of NotMapping documents ->
  let r := Table.insert_multiple documents self in
  fst r = Raise (ValueError "Document is not a Mapping")
  /\ Table.stored (snd r) = Table.stored self
  /\ Table.stored_table (snd r) = Table.stored_table self
  /\ List.filter is_write (Table.trace (snd r)) =
     List.filter is_write (Table.trace self)
  /\ Table._query_cache (snd r) = Table._query_cache self.
Proof.
  intros Q HQ self documents Hin r.
  assert (Hr : fst r = Raise (ValueError "Document is not a Mapping")
               /\ Table.only_reads self (snd r)).
  { subst r. unfold Table.insert_multiple.
    pose proof (insert_multiple_data_raises documents self Hin) as Hraise.
    pose proof (insert_multiple_data_only_reads documents self) as Hro.
    assert (Hbody :
      forall m : Py.M (Table.t Q) (list Z),
        m = (do data <- Table.insert_multiple_data documents;
             do final_doc_ids <-
               Table._update_table
                 (Table.insert_multiple_updater documents data);
             do _ <- Table.cache_clear;
             Py.ret final_doc_ids) ->
        fst (m self) = Raise (ValueError "Document is not a Mapping")
        /\ Table.only_reads self (snd (m self))).
    { intros m Hm.
      destruct (Table.insert_multiple_data documents self)
        as [[data|e] self1] eqn:E; simpl in *; [discriminate|].
      assert (Hrun : m self = (Raise e, self1))
        by (rewrite Hm; unfold Py.bind at 1; now rewrite E).
      rewrite Hrun. simpl. injection Hraise as ->.
      split; [reflexivity|assumption]. }
    destruct documents as [|doc [|doc' rest]].
    - inversion Hin.
    - apply list_elem_of_singleton in Hin. subst doc. simpl.
      split; [reflexivity|apply only_reads_refl].
    - apply (Hbody (Table.insert_multiple (doc :: doc' :: rest))).
      reflexivity. }
  destruct Hr as [Hraise Hro]. split; [exact Hraise|].
  pose proof (only_reads_no_write _ _ Hro) as Hnw.
  destruct Hro as (Hn & Hc & Hs & _).
  unfold Table.stored_table. rewrite Hn, Hs. repeat split; assumption.
Qed.

(** A plain mapping followed by a number: the first is given an ID, the
    second stops the call. *)
Lemma C8_witness :
  let self := table_on [(1, x_is 10)] (Some 10%nat) in
  let r := Table.insert_multiple [PlainMapping (x_is 1); NotMapping] self in
  fst r = Raise (ValueError "Document is not a Mapping")
  /\ Table.stored_table (snd r) = [(1, x_is 10)].
Proof.
  destruct (C8_insert_multiple_rejects_before_writing ExQuery _
              (table_on [(1, x_is 10)] (Some 10%nat))
              [PlainMapping (x_is 1); NotMapping])
    as (Hraise & _ & Hstored & _).
  - apply list_elem_of_further, list_elem_of_here.
  - cbv zeta. split; [exact Hraise|]. rewrite Hstored. reflexivity.
Defined.

(* ===================================================================== *)
(** ** The query cache *)
(* ===================================================================== *)

Section QueryCache.
Context {Q : Type} `{QueryLike Q}.
Implicit Types (self : Table.t Q) (cond : Q).

Lemma log_nil self : Table.log [] self = self.
Proof. destruct self. unfold Table.log. simpl. now rewrite app_nil_r. Qed.

Lemma log_log (es1 es2 : list (Event Q)) self :
  Table.log es2 (Table.log es1 self) = Table.log (es1 ++ es2) self.
Proof. unfold Table.log. simpl. now rewrite app_assoc. Qed.

(** The comprehension of [search] calls the query on every document, in
    order, and keeps those it holds for. *)
Lemma select_run cond (docs : list Document) self :
  Table.select cond docs self =
  (Return (List.filter (fun doc => query_call cond (value doc)) docs),
   Table.log (map (fun doc => EvCond cond (value doc)) docs) self).
Proof.
  revert self. induction docs as [|doc docs IH]; intros self; simpl.
  - unfold Py.ret. now rewrite log_nil.
  - unfold Py.bind at 1. unfold Table.call, Table.emit, Py.bind at 1. simpl.
    unfold Py.bind. rewrite IH, log_log. simpl.
    destruct (query_call cond (value doc)); reflexivity.
Qed.

Lemma search_miss cond self :
  ODict.get cond (LRUCache.cache (Table._query_cache self)) = None ->
  Table.search cond self =
  (Return (Table.computed cond self),
   {| Table._name := Table._name self;
      Table._query_cache :=
        LRUCache.__setitem__ cond (Table.computed cond self)
          (Table._query_cache self);
      Table._next_id := Table._next_id self;
      Table.stored := Table.stored self;
      Table.trace :=
        Table.trace self ++
        EvRead :: map (fun doc => EvCond cond (value doc))
                    (Table.documents_of (Table.stored_table self));
      Table.fresh := S (Table.fresh self) |}).
Proof.
  intros Hmiss. destruct self as [name qc nid st tr fr]. simpl in *.
  unfold Table.search, Table.all, Table.computed, Table.stored_table,
    Table.documents_of. run_py.
  unfold ODict.mem. rewrite Hmiss. rewrite select_run. simpl.
  rewrite <- app_assoc. reflexivity.
Qed.

Lemma search_hit cond (docs : PyList) self :
  ODict.get cond (LRUCache.cache (Table._query_cache self)) = Some docs ->
  Table.search cond self =
  (Return docs,
   {| Table._name := Table._name self;
      Table._query_cache :=
        {| LRUCache.capacity := LRUCache.capacity (Table._query_cache self);
           LRUCache.cache :=
             ODict.del cond (LRUCache.cache (Table._query_cache self))
             ++ [(cond, docs)] |};
      Table._next_id := Table._next_id self;
      Table.stored := Table.stored self;
      Table.trace := Table.trace self;
      Table.fresh := Table.fresh self |}).
Proof.
  intros Hhit. destruct self as [name qc nid st tr fr]. simpl in *.
  unfold Table.search. run_py. unfold ODict.mem.
  rewrite Hhit. unfold LRUCache.__getitem__. simpl. rewrite Hhit. reflexivity.
Qed.

(** A search whose query is the last entry of the cache, and nowhere
    before, returns that entry's list and changes nothing at all. *)
Lemma search_last cond (docs : PyList) (older : list (Q * PyList)) self :
  LRUCache.cache (Table._query_cache self) = older ++ [(cond, docs)] ->
  ODict.get cond older = None ->
  Table.search cond self = (Return docs, self).
Proof.
  intros Hcache Hold.
  destruct self as [name [cap c] nid st tr fr]. simpl in Hcache. subst c.
  assert (Hhit : ODict.get cond (older ++ [(cond, docs)]) = Some docs).
  { rewrite get_app, Hold. simpl.
    destruct (decide (cond = cond)); [reflexivity|contradiction]. }
  rewrite (search_hit cond docs) by exact Hhit. simpl.
  rewrite del_app, (del_absent cond older Hold). simpl.
  destruct (decide (cond = cond)); [|contradiction].
  now rewrite app_nil_r.
Qed.

(** After a search, when the capacity is not 0, the query is the last
    entry of the cache with the list returned. *)
Lemma search_leaves_last cond self :
  LRUCache.capacity (Table._query_cache self) <> Some 0%nat ->
  exists docs older,
    fst (Table.search cond self) = Return docs
    /\ LRUCache.cache (Table._query_cache (snd (Table.search cond self)))
       = older ++ [(cond, docs)]
    /\ ODict.get cond older = None.
Proof.
  intros Hcap.
  destruct (ODict.get cond (LRUCache.cache (Table._query_cache self)))
    as [docs|] eqn:E.
  - rewrite (search_hit cond docs self E). simpl.
    exists docs, (ODict.del cond (LRUCache.cache (Table._query_cache self))).
    repeat split. apply get_del_same.
  - rewrite (search_miss cond self E). simpl.
    exists (Table.computed cond self).
    unfold LRUCache.__setitem__, LRUCache.inserted, ODict.mem. rewrite E.
    destruct (LRUCache.capacity (Table._query_cache self)) as [cap|];
      [|now exists (LRUCache.cache (Table._query_cache self))].
    destruct (cap <? _)%nat eqn:Hover; simpl;
      [|now exists (LRUCache.cache (Table._query_cache self))].
    apply Nat.ltb_lt in Hover. rewrite length_app in Hover. simpl in Hover.
    destruct (LRUCache.cache (Table._query_cache self)) as [|[k v] older];
      simpl in *.
    + destruct cap; [congruence|lia].
    + exists older. repeat split.
      destruct (decide (cond = k)); [discriminate|exact E].
Qed.
End QueryCache.

Section Invalidation.
Context {Q : Type} `{QueryLike Q}.
Implicit Types (self : Table.t Q).

Lemma clears_bind {A B} (m : Py.M (Table.t Q) A)
    (k : A -> Py.M (Table.t Q) B) :
  (forall a, Table.clears_cache (k a)) -> Table.clears_cache (Py.bind m k).
Proof.
  intros Hk self. unfold Py.bind.
  destruct (m self) as [[a|e] self1]; [apply Hk|exact I].
Qed.

Lemma clears_raise {A} (e : Exception) :
  Table.clears_cache (Py.raise e : Py.M (Table.t Q) A).
Proof. intros self. exact I. Qed.

Lemma clears_then_ret {A B} (m : Py.M (Table.t Q) A) (b : B) :
  Table.clears_cache m -> Table.clears_cache (Py.bind m (fun _ => Py.ret b)).
Proof.
  intros Hm self. specialize (Hm self). unfold Py.bind, Py.ret.
  destruct (m self) as [[a|e] self1]; [exact Hm|exact I].
Qed.

Lemma clears_at_end {A} (a : A) :
  Table.clears_cache
    (Py.bind Table.cache_clear (fun _ => Py.ret a) : Py.M (Table.t Q) A).
Proof. intros self. reflexivity. Qed.

Lemma insert_clears (document : PyObj) :
  Table.clears_cache (Table.insert (Q := Q) document).
Proof.
  unfold Table.insert.
  destruct (negb (isinstance_Mapping document)); [apply clears_raise|].
  apply clears_bind. intros [doc_id document'].
  apply clears_bind. intros final_doc_id. apply clears_at_end.
Qed.

Lemma insert_multiple_clears (documents : list PyObj) :
  Table.clears_cache (Table.insert_multiple (Q := Q) documents).
Proof.
  unfold Table.insert_multiple.
  apply clears_bind. intros _. apply clears_bind. intros data.
  apply clears_bind. intros final_doc_ids. apply clears_at_end.
Qed.

Lemma update_clears (fields : Fields) (cond : option Q)
    (doc_ids : option (list Z)) :
  Table.clears_cache (Table.update fields cond doc_ids).
Proof.
  unfold Table.update. apply clears_bind. intros updated_ids.
  apply clears_at_end.
Qed.

Lemma remove_clears (cond : option Q) (doc_ids : option (list Z)) :
  Table.clears_cache (Table.remove cond doc_ids).
Proof.
  unfold Table.remove.
  destruct cond, doc_ids;
    try (apply clears_bind; intros removed_ids; apply clears_at_end).
  apply clears_raise.
Qed.

Lemma truncate_clears : Table.clears_cache (Table.truncate (Q := Q)).
Proof.
  unfold Table.truncate. apply clears_bind. intros _ self. reflexivity.
Qed.

Lemma mutate_clears (c : Table.Mutation Q) :
  Table.clears_cache (Table.mutate c).
Proof.
  destruct c; simpl.
  - apply clears_then_ret, insert_clears.
  - apply clears_then_ret, insert_multiple_clears.
  - apply clears_then_ret, update_clears.
  - apply clears_then_ret, remove_clears.
  - apply truncate_clears.
Qed.
End Invalidation.

(* ===================================================================== *)
(** ** More of the cache: callers' loops *)
(* ===================================================================== *)

(** [for key, value in entries: cache[key] = value] *)
Definition set_each {K V : Type} `{EqDecision K} (entries : list (K * V))
    (self : LRUCache.t K V) : LRUCache.t K V :=
  fold_left (fun c kv => LRUCache.__setitem__ (fst kv) (snd kv) c)
    entries self.

Section LRUMore.
Context {K V : Type} `{EqDecision K}.
Implicit Types (self : LRUCache.t K V) (key : K) (d : list (K * V)).

Lemma wf_del key d : ODict.wf d -> ODict.wf (ODict.del key d).
Proof.
  unfold ODict.wf. induction d as [|[k v] d IH]; simpl; [trivial|].
  intros Hnd. apply NoDup_cons in Hnd as [Hout Hnd].
  destruct (decide (key = k)); [now apply IH|]. simpl.
  apply NoDup_cons. split; [|now apply IH].
  intros Hin. apply Hout. apply get_absent_keys in Hout.
  destruct (ODict.get k (ODict.del key d)) eqn:E.
  - rewrite get_del_other in E by assumption. congruence.
  - apply get_absent_keys in E. contradiction.
Qed.

Lemma wf_snoc key (val : V) d :
  ODict.wf d -> ODict.get key d = None -> ODict.wf (d ++ [(key, val)]).
Proof.
  unfold ODict.wf, ODict.keys. intros Hnd Habs. rewrite map_app. simpl.
  apply NoDup_app. split; [exact Hnd|]. split.
  - intros k Hin Hin'. apply list_elem_of_singleton in Hin'. subst k.
    apply get_absent_keys in Habs. contradiction.
  - apply NoDup_singleton.
Qed.

Lemma wf_tl d : ODict.wf d -> ODict.wf (tl d).
Proof.
  unfold ODict.wf. destruct d as [|[k v] d]; simpl; [trivial|].
  intros Hnd. now apply NoDup_cons in Hnd as [_ Hnd].
Qed.

Lemma inserted_shape key (val : V) self :
  exists older,
    LRUCache.inserted key val self = older ++ [(key, val)]
    /\ ODict.get key older = None
    /\ (ODict.wf (LRUCache.cache self) -> ODict.wf older)
    /\ (forall k, key <> k ->
          ODict.get k older = ODict.get k (LRUCache.cache self)).
Proof.
  unfold LRUCache.inserted, ODict.mem.
  destruct (ODict.get key (LRUCache.cache self)) as [v|] eqn:E.
  - exists (ODict.del key (LRUCache.cache self)).
    split; [reflexivity|]. split; [apply get_del_same|].
    split; [apply wf_del|]. intros k Hne. now apply get_del_other.
  - exists (LRUCache.cache self). repeat split; trivial.
Qed.

(** After [__setitem__] on a cache whose capacity is not 0, the key is
    the last entry, with the value given, and is nowhere before. *)
Lemma setitem_leaves_last key (val : V) self :
  LRUCache.capacity self <> Some 0%nat ->
  exists older,
    LRUCache.cache (LRUCache.__setitem__ key val self)
    = older ++ [(key, val)]
    /\ ODict.get key older = None.
Proof.
  intros Hcap.
  destruct (inserted_shape key val self) as (older & Hins & Habs & _).
  unfold LRUCache.__setitem__. cbv zeta. rewrite Hins.
  destruct (LRUCache.capacity self) as [cap|]; [|now exists older].
  destruct (cap <? _)%nat eqn:Hover; simpl; [|now exists older].
  apply Nat.ltb_lt in Hover. rewrite length_app in Hover. simpl in Hover.
  destruct older as [|[k v] older]; simpl in *.
  - destruct cap; [congruence|lia].
  - exists older. split; [reflexivity|].
    destruct (decide (key = k)); [discriminate|exact Habs].
Qed.

Lemma getitem_last key (val : V) (older : list (K * V)) cap :
  ODict.get key older = None ->
  LRUCache.__getitem__ key (LRUCache.mk cap (older ++ [(key, val)]))
  = (inr val, LRUCache.mk cap (older ++ [(key, val)])).
Proof.
  intros Habs. unfold LRUCache.__getitem__. simpl.
  rewrite get_app, Habs. simpl.
  destruct (decide (key = key)); [|contradiction].
  rewrite del_app, (del_absent key older Habs). simpl.
  destruct (decide (key = key)); [|contradiction].
  now rewrite app_nil_r.
Qed.

Lemma capacity_setitem key (val : V) self :
  LRUCache.capacity (LRUCache.__setitem__ key val self)
  = LRUCache.capacity self.
Proof. apply (capacity_run (LRUCache.OpSet key val)). Qed.
End LRUMore.

(** X1. In a cache whose capacity is not 0, a key that was just set is
    in the cache, [__getitem__] returns the value it was set to, and
    that read leaves the cache exactly as the set left it. *)
Theorem X1_lru_set_then_get :
  forall (K V : Type) `(EqDecision K) (self : LRUCache.t K V) (key : K)
    (val : V),
  LRUCache.capacity self <> Some 0%nat ->
  let self1 := LRUCache.__setitem__ key val self in
  fst (LRUCache.__contains__ key self1) = true
  /\ LRUCache.__getitem__ key self1 = (inr val, self1)
  /\ LRUCache.get key None self1 = (Some val, self1).
Proof.
  intros K V HK self key val Hcap self1.
  destruct (setitem_leaves_last key val self Hcap) as (older & Hc & Habs).
  fold self1 in Hc.
  assert (Hself1 : self1 = LRUCache.mk (LRUCache.capacity self)
                             (older ++ [(key, val)])).
  { rewrite <- Hc. subst self1. rewrite <- (capacity_setitem key val self).
    now destruct (LRUCache.__setitem__ key val self). }
  rewrite Hself1. unfold LRUCache.get. rewrite (getitem_last key val older _ Habs).
  split; [|split; reflexivity].
  simpl. unfold ODict.mem. rewrite get_app, Habs. simpl.
  destruct (decide (key = key)); [reflexivity|contradiction].
Qed.

Lemma X1_witness :
  let self1 :=
    LRUCache.__setitem__ "c"%string 3
      (LRUCache.mk (Some 2%nat) [("a"%string, 1); ("b"%string, 2)]) in
  fst (LRUCache.__contains__ "c"%string self1) = true
  /\ LRUCache.__getitem__ "c"%string self1 = (inr 3, self1)
  /\ LRUCache.get "c"%string None self1 = (Some 3, self1).
Proof.
  apply (X1_lru_set_then_get string Z _
           (LRUCache.mk (Some 2%nat) [("a"%string, 1); ("b"%string, 2)])
           "c"%string 3).
  simpl. discriminate.
Defined.

Section LRUDelete.
Context {K V : Type} `{EqDecision K}.
Implicit Types (self : LRUCache.t K V) (key : K) (d : list (K * V)).

Lemma length_del_wf key d :
  ODict.wf d -> ODict.mem key d = true ->
  S (length (ODict.del key d)) = length d.
Proof.
  unfold ODict.wf, ODict.mem.
  induction d as [|[k v] d IH]; simpl; [discriminate|].
  intros Hnd Hmem. apply NoDup_cons in Hnd as [Hout Hnd].
  destruct (decide (key = k)) as [->|Hne]; simpl.
  - apply get_absent_keys in Hout. now rewrite (del_absent k d Hout).
  - now rewrite (IH Hnd Hmem).
Qed.

Lemma wf_run (o : LRUCache.op K V) self :
  ODict.wf (LRUCache.cache self) ->
  ODict.wf (LRUCache.cache (LRUCache.run o self)).
Proof.
  intros Hwf.
  destruct o as [|key|key val|key|key| |key default| |]; simpl;
    try exact Hwf.
  - destruct (inserted_shape key val self) as (older & Hins & Habs & Hw & _).
    unfold LRUCache.__setitem__. cbv zeta. rewrite Hins.
    assert (Hall : ODict.wf (older ++ [(key, val)]))
      by (apply wf_snoc; auto).
    destruct (LRUCache.capacity self) as [cap|]; [|exact Hall].
    destruct (cap <? _)%nat; simpl; [now apply wf_tl|exact Hall].
  - unfold LRUCache.__delitem__.
    destruct (ODict.get key (LRUCache.cache self)); simpl;
      [now apply wf_del|exact Hwf].
  - unfold LRUCache.__getitem__.
    destruct (ODict.get key (LRUCache.cache self)); simpl; [|exact Hwf].
    apply wf_snoc; [now apply wf_del|apply get_del_same].
  - unfold LRUCache.get, LRUCache.__getitem__.
    destruct (ODict.get key (LRUCache.cache self)); simpl; [|exact Hwf].
    apply wf_snoc; [now apply wf_del|apply get_del_same].
  - apply NoDup_nil_2.
Qed.
End LRUDelete.

(** X2. Deleting a key that is in the cache returns normally and takes
    out that entry alone: the key is no longer in the cache, every
    other key keeps its value and its place in the order, and there is
    one entry less. Deleting it once more raises [KeyError] and changes
    nothing, and [get] with a default then returns the default and
    changes nothing. *)
Theorem X2_lru_delete :
  forall (K V : Type) `(EqDecision K) (self : LRUCache.t K V) (key : K)
    (default : option V),
  ODict.wf (LRUCache.cache self) ->
  fst (LRUCache.__contains__ key self) = true ->
  let r := LRUCache.__delitem__ key self in
  fst r = inr tt
  /\ fst (LRUCache.__contains__ key (snd r)) = false
  /\ (forall k, key <> k ->
        ODict.get k (LRUCache.cache (snd r)) =
        ODict.get k (LRUCache.cache self))
  /\ ODict.keys (LRUCache.cache (snd r)) =
     List.filter (fun k => negb (bool_decide (key = k)))
       (ODict.keys (LRUCache.cache self))
  /\ S (length (LRUCache.cache (snd r))) = length (LRUCache.cache self)
  /\ LRUCache.__delitem__ key (snd r) = (inl KeyError_raised, snd r)
  /\ LRUCache.get key default (snd r) = (default, snd r).
Proof.
  intros K V HK [cap c] key default Hwf Hmem r. simpl in *.
  unfold LRUCache.__delitem__ in r. simpl in r.
  pose proof Hmem as Hget. unfold ODict.mem in Hget.
  destruct (ODict.get key c) as [v|] eqn:E; [|discriminate].
  subst r. simpl.
  split; [reflexivity|]. split.
  { unfold ODict.mem. now rewrite get_del_same. }
  split; [intros k Hne; now apply get_del_other|].
  split; [apply keys_del|].
  split; [now apply length_del_wf|].
  unfold LRUCache.get, LRUCache.__delitem__, LRUCache.__getitem__. simpl.
  rewrite get_del_same. split; reflexivity.
Qed.

Lemma X2_witness :
  let self := LRUCache.mk (Some 3%nat)
                [("a"%string, 1); ("b"%string, 2); ("c"%string, 3)] in
  let r := LRUCache.__delitem__ "b"%string self in
  fst r = inr tt
  /\ ODict.keys (LRUCache.cache (snd r)) = ["a"; "c"]%string
  /\ LRUCache.__delitem__ "b"%string (snd r) = (inl KeyError_raised, snd r).
Proof.
  destruct (X2_lru_delete string Z _
              (LRUCache.mk (Some 3%nat)
                 [("a"%string, 1); ("b"%string, 2); ("c"%string, 3)])
              "b"%string None)
    as (Hret & _ & _ & Hkeys & _ & Hagain & _).
  - apply (bool_decide_unpack _). vm_compute. exact I.
  - reflexivity.
  - cbv zeta. split; [exact Hret|]. split; [|exact Hagain].
    rewrite Hkeys. reflexivity.
Defined.

(** X3. No key is ever in the cache twice: whatever operations are run
    on a cache from its creation, with or without a capacity, the keys
    of its entries are pairwise different; and one operation keeps them
    so from any state where they are. *)
Theorem X3_lru_keys_stay_unique :
  (forall (K V : Type) `(EqDecision K) (capacity : option nat)
      (os : list (LRUCache.op K V)),
      ODict.wf (LRUCache.cache
                  (LRUCache.run_all os (LRUCache.__init__ capacity))))
  /\ (forall (K V : Type) `(EqDecision K) (self : LRUCache.t K V)
        (o : LRUCache.op K V),
      ODict.wf (LRUCache.cache self) ->
      ODict.wf (LRUCache.cache (LRUCache.run o self))).
Proof.
  split.
  - intros K V HK capacity os.
    assert (Hgen : forall self : LRUCache.t K V,
               ODict.wf (LRUCache.cache self) ->
               ODict.wf (LRUCache.cache (LRUCache.run_all os self))).
    { unfold LRUCache.run_all. induction os as [|o os IH]; intros self Hwf;
        simpl; [exact Hwf|]. apply IH. now apply wf_run. }
    apply Hgen. apply NoDup_nil_2.
  - intros K V HK self o. apply wf_run.
Qed.

Lemma X3_witness :
  ODict.wf (LRUCache.cache
              (LRUCache.run (LRUCache.OpSet "a"%string 5)
                 (LRUCache.mk (Some 2%nat)
                    [("a"%string, 1); ("b"%string, 2)]))).
Proof.
  apply (proj2 X3_lru_keys_stay_unique string Z _
           (LRUCache.mk (Some 2%nat) [("a"%string, 1); ("b"%string, 2)])
           (LRUCache.OpSet "a"%string 5)).
  apply (bool_decide_unpack _). vm_compute. exact I.
Defined.

(** X4. Setting a key that is already there, in a cache that is within
    its capacity, evicts nothing: the entry moves to the end of the
    order with the new value, the number of entries stays the same and
    every other key keeps its value. *)
Theorem X4_lru_overwrite_moves_last :
  forall (K V : Type) `(EqDecision K) (self : LRUCache.t K V) (key : K)
    (val : V),
  ODict.wf (LRUCache.cache self) ->
  (forall n, LRUCache.capacity self = Some n ->
             (length (LRUCache.cache self) <= n)%nat) ->
  fst (LRUCache.__contains__ key self) = true ->
  let self1 := LRUCache.__setitem__ key val self in
  LRUCache.cache self1 = ODict.del key (LRUCache.cache self) ++ [(key, val)]
  /\ length (LRUCache.cache self1) = length (LRUCache.cache self)
  /\ ODict.get key (LRUCache.cache self1) = Some val
  /\ (forall k, key <> k ->
        ODict.get k (LRUCache.cache self1) =
        ODict.get k (LRUCache.cache self)).
Proof.
  intros K V HK [cap c] key val Hwf Hfit Hmem self1. simpl in *.
  assert (Hc : LRUCache.cache self1 = ODict.del key c ++ [(key, val)]).
  { subst self1. unfold LRUCache.__setitem__, LRUCache.inserted. simpl.
    rewrite Hmem. destruct cap as [n|]; [|reflexivity].
    specialize (Hfit n eq_refl).
    pose proof (length_del_wf key c Hwf Hmem) as Hlen.
    assert (Hb : (n <? length (ODict.del key c ++ [(key, val)]))%nat = false).
    { apply Nat.ltb_ge. rewrite length_app. simpl. lia. }
    now rewrite Hb. }
  rewrite Hc. split; [reflexivity|]. split.
  { rewrite length_app. simpl.
    pose proof (length_del_wf key c Hwf Hmem). lia. }
  split.
  - rewrite get_app, get_del_same. simpl.
    destruct (decide (key = key)); [reflexivity|contradiction].
  - intros k Hne. rewrite get_app, (get_del_other key k c Hne).
    destruct (ODict.get k c); [reflexivity|]. simpl.
    destruct (decide (k = key)); [congruence|reflexivity].
Qed.

Lemma X4_witness :
  let self := LRUCache.mk (Some 2%nat) [("a"%string, 1); ("b"%string, 2)] in
  LRUCache.cache (LRUCache.__setitem__ "a"%string 9 self)
  = [("b"%string, 2); ("a"%string, 9)].
Proof.
  destruct (X4_lru_overwrite_moves_last string Z _
              (LRUCache.mk (Some 2%nat) [("a"%string, 1); ("b"%string, 2)])
              "a"%string 9)
    as (Hc & _).
  - apply (bool_decide_unpack _). vm_compute. exact I.
  - intros n Hn. injection Hn as <-. simpl. lia.
  - reflexivity.
  - cbv zeta. rewrite Hc. reflexivity.
Defined.

Section LRUFill.
Context {K V : Type} `{EqDecision K}.
Implicit Types (d entries : list (K * V)).

Lemma skipn_S_tl {A} (m : nat) (l : list A) :
  skipn (S m) l = tl (skipn m l).
Proof.
  revert l. induction m as [|m IH]; intros [|x l]; simpl; try reflexivity.
  apply IH.
Qed.

Lemma get_skipn_absent (key : K) (m : nat) d :
  ODict.get key d = None -> ODict.get key (skipn m d) = None.
Proof.
  revert d. induction m as [|m IH]; intros [|[k v] d]; simpl; trivial.
  destruct (decide (key = k)); [discriminate|]. apply IH.
Qed.

Lemma set_each_snoc entries (kv : K * V) (self : LRUCache.t K V) :
  set_each (entries ++ [kv]) self =
  LRUCache.__setitem__ (fst kv) (snd kv) (set_each entries self).
Proof. unfold set_each. now rewrite fold_left_app. Qed.

Lemma set_each_capacity entries (self : LRUCache.t K V) :
  LRUCache.capacity (set_each entries self) = LRUCache.capacity self.
Proof.
  induction entries as [|kv entries IH] using rev_ind; [reflexivity|].
  now rewrite set_each_snoc, capacity_setitem.
Qed.

Lemma set_each_fill entries (capacity : option nat) :
  ODict.wf entries ->
  LRUCache.cache (set_each entries (LRUCache.__init__ capacity)) =
  match capacity with
  | None => entries
  | Some n => skipn (length entries - n) entries
  end.
Proof.
  induction entries as [|[key val] entries IH] using rev_ind; intros Hwf.
  - destruct capacity as [n|]; [now destruct n|reflexivity].
  - unfold ODict.wf, ODict.keys in Hwf. rewrite map_app in Hwf.
    apply NoDup_app in Hwf as (Hnd & Hdisj & _).
    assert (Habs : ODict.get key entries = None).
    { apply get_absent_keys. intros Hin. apply (Hdisj key Hin).
      simpl. now left. }
    specialize (IH Hnd). rewrite set_each_snoc. simpl.
    unfold LRUCache.__setitem__, LRUCache.inserted, ODict.mem.
    rewrite set_each_capacity, IH. simpl.
    destruct capacity as [n|].
    + rewrite (get_skipn_absent key _ entries Habs).
      rewrite !length_app, length_skipn. simpl.
      destruct (n <? _)%nat eqn:Hover.
      * apply Nat.ltb_lt in Hover. simpl.
        replace (length entries + 1 - n)%nat
          with (S (length entries - n)) by lia.
        rewrite skipn_S_tl, skipn_app.
        replace (length entries - n - length entries)%nat with 0%nat by lia.
        reflexivity.
      * apply Nat.ltb_ge in Hover. simpl.
        replace (length entries - n)%nat with 0%nat by lia.
        replace (length entries + 1 - n)%nat with 0%nat by lia.
        reflexivity.
    + now rewrite Habs.
Qed.
End LRUFill.

(** X5. Setting entries with pairwise different keys, one after the
    other, in a new cache of capacity [n] leaves exactly the last [n]
    of them, in the order they were set (all of them when there are no
    more than [n], none when [n] is 0); a new cache without a capacity
    keeps them all. In particular [n + 1] different keys leave [n]
    entries, the first one gone. *)
Theorem X5_lru_keeps_the_last_n :
  forall (K V : Type) `(EqDecision K) (entries : list (K * V))
    (capacity : option nat),
  ODict.wf entries ->
  LRUCache.cache (set_each entries (LRUCache.__init__ capacity)) =
  match capacity with
  | None => entries
  | Some n => skipn (length entries - n) entries
  end.
Proof. intros K V HK entries capacity. apply set_each_fill. Qed.

Lemma X5_witness :
  LRUCache.cache
    (set_each [("a"%string, 1); ("b"%string, 2); ("c"%string, 3)]
       (LRUCache.__init__ (Some 2%nat)))
  = [("b"%string, 2); ("c"%string, 3)].
Proof.
  rewrite (X5_lru_keeps_the_last_n string Z _
             [("a"%string, 1); ("b"%string, 2); ("c"%string, 3)]
             (Some 2%nat)).
  - reflexivity.
  - apply (bool_decide_unpack _). vm_compute. exact I.
Defined.

(* ===================================================================== *)
(** ** More of the table: looking documents up by ID *)
(* ===================================================================== *)

Section LookupById.
Context {Q : Type} `{QueryLike Q}.
Implicit Types (self : Table.t Q).

Lemma get_by_id_run (cond : option Q) (doc_id : Z)
    (doc_ids : option (list Z)) self :
  Table.get cond (Some doc_id) doc_ids self =
  (Return (match ODict.get doc_id (Table.stored_table self) with
           | Some doc => GDoc (mkDocument doc doc_id)
           | None => GNone
           end),
   Table.log [EvRead] self).
Proof.
  unfold Table.get, Table.stored_table.
  destruct cond; run_py; destruct (ODict.get doc_id _); reflexivity.
Qed.

Lemma contains_by_id_run (cond : option Q) (doc_id : Z) self :
  Table.contains cond (Some doc_id) self =
  (Return (ODict.mem doc_id (Table.stored_table self)),
   Table.log [EvRead] self).
Proof.
  unfold Table.contains, Table.stored_table.
  destruct cond; run_py; reflexivity.
Qed.
End LookupById.

(** X6. A lookup by document ID wins over a condition and over a list
    of IDs given with it; it reads the storage once and changes nothing
    else: nothing is written, and the query cache is neither used nor
    changed. [get] returns the document stored under the ID, with that
    ID, or [None] when there is none, and [contains] returns whether
    the ID is in the table, so it is true exactly when [get] returns a
    document. [all] and [__len__] read once in the same way and give
    the stored documents in the table's order and their number. *)
Theorem X6_lookup_by_id_reads_once :
  forall (Q : Type) `(QueryLike Q) (self : Table.t Q) (cond : option Q)
    (doc_id : Z) (doc_ids : option (list Z)),
  let table := Table.stored_table self in
  Table.get cond (Some doc_id) doc_ids self =
    (Return (match ODict.get doc_id table with
             | Some doc => GDoc (mkDocument doc doc_id)
             | None => GNone
             end),
     Table.log [EvRead] self)
  /\ Table.contains cond (Some doc_id) self =
     (Return (ODict.mem doc_id table), Table.log [EvRead] self)
  /\ (fst (Table.contains cond (Some doc_id) self) = Return true <->
      exists doc, fst (Table.get cond (Some doc_id) doc_ids self)
                  = Return (GDoc (mkDocument doc doc_id)))
  /\ Table.all self =
     (Return (Table.documents_of table), Table.log [EvRead] self)
  /\ Table.__len__ self = (Return (length table), Table.log [EvRead] self).
Proof.
  intros Q HQ self cond doc_id doc_ids table. subst table.
  rewrite get_by_id_run, contains_by_id_run. simpl.
  split; [reflexivity|]. split; [reflexivity|]. split.
  - unfold ODict.mem.
    destruct (ODict.get doc_id (Table.stored_table self)) as [doc|].
    + split; [intros _; now exists doc|reflexivity].
    + split; [discriminate|intros [doc Hdoc]; discriminate].
  - split; reflexivity.
Qed.

Section InsertLookup.
Context {Q : Type} `{QueryLike Q}.
Implicit Types (self : Table.t Q).

(** What [insert] leaves in the storage under the ID it returns. *)
Lemma insert_stores (document : PyObj) self (final_doc_id : Z) :
  fst (Table.insert document self) = Return final_doc_id ->
  ODict.get final_doc_id (Table.stored_table (snd (Table.insert document self)))
  = Some (dict_of document).
Proof.
  destruct self as [name qc nid st tr fr].
  unfold Table.insert, Table.stored_table.
  destruct document as [|m|d]; simpl; [discriminate| |].
  - run_py. destruct nid as [c|]; simpl.
    + destruct (ODict.mem c _); simpl; intros [= <-];
        now rewrite !get_set_same; simpl; rewrite get_set_same.
    + match goal with |- context [ODict.mem ?i ?t] =>
        destruct (ODict.mem i t) end; simpl; intros [= <-];
        now rewrite !get_set_same; simpl; rewrite get_set_same.
  - run_py. destruct (ODict.mem (doc_id d) _); simpl.
    + destruct nid as [c|]; simpl; intros [= <-];
        now rewrite !get_set_same; simpl; rewrite get_set_same.
    + intros [= <-]. now rewrite !get_set_same; simpl; rewrite get_set_same.
Qed.

Lemma insert_returns (document : PyObj) self :
  isinstance_Mapping document = true ->
  exists final_doc_id, fst (Table.insert document self) = Return final_doc_id.
Proof.
  destruct self as [name qc nid st tr fr].
  unfold Table.insert. destruct document as [|m|d]; simpl; [discriminate| |];
    intros _; run_py.
  - destruct nid as [c|]; simpl.
    + destruct (ODict.mem c _); simpl; now eexists.
    + match goal with |- context [ODict.mem ?i ?t] =>
        destruct (ODict.mem i t) end; simpl; now eexists.
  - destruct (ODict.mem (doc_id d) _); simpl; [|now eexists].
    destruct nid; simpl; now eexists.
Qed.
End InsertLookup.

(** X7. Whatever the table holds and wherever its cursor stands,
    [insert] of a mapping, plain or a [Document], returns an ID, and
    [get] with that ID right afterwards returns the inserted content
    under that ID; [contains] with that ID is true. *)
Theorem X7_insert_then_get_by_id :
  forall (Q : Type) `(QueryLike Q) (self : Table.t Q) (document : PyObj),
  isinstance_Mapping document = true ->
  exists final_doc_id,
    fst (Table.insert document self) = Return final_doc_id
    /\ fst (Table.get None (Some final_doc_id) None
              (snd (Table.insert document self)))
       = Return (GDoc (mkDocument (dict_of document) final_doc_id))
    /\ fst (Table.contains None (Some final_doc_id)
              (snd (Table.insert document self)))
       = Return true.
Proof.
  intros Q HQ self document Hmap.
  destruct (insert_returns document self Hmap) as [final_doc_id Hret].
  exists final_doc_id. split; [exact Hret|].
  pose proof (insert_stores document self final_doc_id Hret) as Hst.
  rewrite get_by_id_run, contains_by_id_run. simpl.
  unfold ODict.mem. rewrite Hst. split; reflexivity.
Qed.

Lemma X7_witness :
  exists final_doc_id,
    fst (Table.insert (PlainMapping (x_is 5))
           (table_on [(1, x_is 1); (4, x_is 4)] (Some 10%nat)))
    = Return final_doc_id
    /\ fst (Table.get None (Some final_doc_id) None
              (snd (Table.insert (PlainMapping (x_is 5))
                      (table_on [(1, x_is 1); (4, x_is 4)] (Some 10%nat)))))
       = Return (GDoc (mkDocument (x_is 5) final_doc_id)).
Proof.
  destruct (X7_insert_then_get_by_id ExQuery _
              (table_on [(1, x_is 1); (4, x_is 4)] (Some 10%nat))
              (PlainMapping (x_is 5)) eq_refl)
    as (final_doc_id & Hret & Hget & _).
  exists final_doc_id. split; [exact Hret|exact Hget].
Defined.

(* ===================================================================== *)
(** ** More of the table: the IDs that inserts hand out *)
(* ===================================================================== *)

(** [[self.insert(m) for m in mappings]] *)
Fixpoint insert_each {Q : Type} `{QueryLike Q} (mappings : list Content)
    : Py.M (Table.t Q) (list Z) :=
  match mappings with
  | [] => Py.ret []
  | m :: mappings' =>
      do final_doc_id <- Table.insert (PlainMapping m);
      do ids <- insert_each mappings';
      Py.ret (final_doc_id :: ids)
  end.

(** [c, c + 1, ...], [n] of them. *)
Fixpoint ids_from (c : Z) (n : nat) : list Z :=
  match n with
  | O => []
  | S n' => c :: ids_from (c + 1) n'
  end.

(** The cursor is set, to [c], and every ID in the stored table is
    below it. *)
Definition cursor_ahead {Q : Type} (c : Z) (self : Table.t Q) : Prop :=
  Table._next_id self = Some c
  /\ forall k, elem_of k (ODict.keys (Table.stored_table self)) -> k < c.

Section Allocation.
Context {Q : Type} `{QueryLike Q}.
Implicit Types (self : Table.t Q) (m : Content).

Lemma keys_snoc {K V : Type} (d : list (K * V)) (k : K) (v : V) :
  ODict.keys (d ++ [(k, v)]) = ODict.keys d ++ [k].
Proof. unfold ODict.keys. now rewrite map_app. Qed.

Lemma absent_below (table : Tbl) (c : Z) :
  (forall k, elem_of k (ODict.keys table) -> k < c) ->
  ODict.get c table = None.
Proof.
  intros Hlt. apply get_absent_keys. intros Hin.
  specialize (Hlt c Hin). lia.
Qed.

Lemma below_snoc (table : Tbl) (c c' : Z) m :
  (forall k, elem_of k (ODict.keys table) -> k < c) -> c < c' ->
  forall k, elem_of k (ODict.keys (table ++ [(c, m)])) -> k < c'.
Proof.
  intros Hlt Hc k Hin. rewrite keys_snoc in Hin.
  apply elem_of_app in Hin as [Hin|Hin].
  - specialize (Hlt k Hin). lia.
  - apply list_elem_of_singleton in Hin. lia.
Qed.

(** An insert of a plain mapping when the cursor is ahead of the
    table. *)
Lemma insert_plain_ahead (c : Z) m self :
  cursor_ahead c self ->
  fst (Table.insert (PlainMapping m) self) = Return c
  /\ Table.stored_table (snd (Table.insert (PlainMapping m) self))
     = Table.stored_table self ++ [(c, m)]
  /\ cursor_ahead (c + 1) (snd (Table.insert (PlainMapping m) self)).
Proof.
  destruct self as [name qc nid st tr fr].
  unfold cursor_ahead, Table.stored_table. simpl. intros [-> Hlt].
  pose proof (absent_below _ c Hlt) as Habs.
  unfold Table.insert. run_py. unfold ODict.mem. rewrite Habs. simpl.
  rewrite !get_set_same. simpl. rewrite (set_absent c m _ Habs).
  split; [reflexivity|]. split; [reflexivity|]. split; [reflexivity|].
  apply below_snoc; [exact Hlt|lia].
Qed.

(** An insert of a plain mapping when the cursor stands on the highest
    ID of the table. *)
Lemma insert_plain_on_max (c : Z) m self :
  Table._next_id self = Some c ->
  ODict.mem c (Table.stored_table self) = true ->
  (forall k, elem_of k (ODict.keys (Table.stored_table self)) -> k <= c) ->
  fst (Table.insert (PlainMapping m) self) = Return (c + 1)
  /\ Table.stored_table (snd (Table.insert (PlainMapping m) self))
     = Table.stored_table self ++ [(c + 1, m)]
  /\ cursor_ahead (c + 1 + 1) (snd (Table.insert (PlainMapping m) self)).
Proof.
  destruct self as [name qc nid st tr fr].
  unfold cursor_ahead, Table.stored_table. simpl. intros -> Hmem Hle.
  assert (Habs : ODict.get (c + 1)
                   (default [] (ODict.get name (default [] st))) = None).
  { apply absent_below. intros k Hin. specialize (Hle k Hin). lia. }
  unfold Table.insert. run_py. rewrite Hmem. simpl.
  rewrite !get_set_same. simpl. rewrite (set_absent (c + 1) m _ Habs).
  split; [reflexivity|]. split; [reflexivity|]. split; [reflexivity|].
  apply below_snoc; [|lia]. intros k Hin. specialize (Hle k Hin). lia.
Qed.

Lemma insert_each_ahead (mappings : list Content) (c : Z) self :
  cursor_ahead c self ->
  fst (insert_each mappings self) = Return (ids_from c (length mappings))
  /\ Table.stored_table (snd (insert_each mappings self))
     = Table.stored_table self
       ++ combine (ids_from c (length mappings)) mappings
  /\ cursor_ahead (c + Z.of_nat (length mappings))
       (snd (insert_each mappings self)).
Proof.
  revert c self. induction mappings as [|m mappings IH]; intros c self Hc.
  - simpl. rewrite app_nil_r, Z.add_0_r.
    split; [reflexivity|]. split; [reflexivity|exact Hc].
  - destruct (insert_plain_ahead c m self Hc) as (Hret & Hst & Hc1).
    cbn [insert_each length ids_from combine]. unfold Py.bind at 1 3 5.
    destruct (Table.insert (PlainMapping m) self) as [o self1].
    simpl in Hret, Hst, Hc1. subst o.
    destruct (IH (c + 1) self1 Hc1) as (Hret' & Hst' & Hc').
    unfold Py.bind, Py.ret.
    destruct (insert_each mappings self1) as [o self2].
    simpl in *. subst o. simpl.
    split; [reflexivity|]. split.
    + rewrite Hst', Hst, <- app_assoc. reflexivity.
    + replace (c + Z.of_nat (S (length mappings)))
        with (c + 1 + Z.of_nat (length mappings)) by lia.
      exact Hc'.
Qed.
End Allocation.

Section FirstAllocation.
Context {Q : Type} `{QueryLike Q}.
Implicit Types (self : Table.t Q) (m : Content).

Lemma fold_max_ge (l : list Z) (a : Z) : a <= fold_left Z.max l a.
Proof.
  revert a. induction l as [|x l IH]; intros a; simpl; [lia|].
  specialize (IH (Z.max a x)). lia.
Qed.

Lemma fold_max_bound (l : list Z) (a k : Z) :
  elem_of k (a :: l) -> k <= fold_left Z.max l a.
Proof.
  revert a. induction l as [|x l IH]; intros a Hin; simpl.
  - apply list_elem_of_singleton in Hin. lia.
  - apply elem_of_cons in Hin as [->|Hin].
    + pose proof (fold_max_ge l (Z.max a x)). lia.
    + apply elem_of_cons in Hin as [->|Hin].
      * pose proof (fold_max_ge l (Z.max a x)). lia.
      * apply IH. now apply list_elem_of_further.
Qed.

(** The ID the first call of [_get_next_id] computes is above every ID
    of the table. *)
Lemma first_id_above (table : Tbl) (k : Z) :
  elem_of k (ODict.keys table) ->
  k < match table with
      | [] => 1
      | (key, _) :: rest => fold_left Z.max (ODict.keys rest) key + 1
      end.
Proof.
  destruct table as [|[key doc] rest]; simpl; intros Hin.
  - inversion Hin.
  - pose proof (fold_max_bound (ODict.keys rest) key k Hin). lia.
Qed.

(** The first insert of a plain mapping through a new table object: it
    gets the ID after the highest one, and the cursor stays on it. *)
Lemma insert_plain_unset m self :
  Table._next_id self = None ->
  exists c,
    fst (Table._get_next_id self) = Return c
    /\ (forall k, elem_of k (ODict.keys (Table.stored_table self)) -> k < c)
    /\ fst (Table.insert (PlainMapping m) self) = Return c
    /\ Table.stored_table (snd (Table.insert (PlainMapping m) self))
       = Table.stored_table self ++ [(c, m)]
    /\ Table._next_id (snd (Table.insert (PlainMapping m) self)) = Some c.
Proof.
  destruct self as [name qc nid st tr fr].
  unfold Table.stored_table. simpl. intros ->.
  set (table := default [] (ODict.get name (default [] st))).
  set (c := match table with
            | [] => 1
            | (key, _) :: rest => fold_left Z.max (ODict.keys rest) key + 1
            end).
  assert (Hlt : forall k, elem_of k (ODict.keys table) -> k < c)
    by apply first_id_above.
  pose proof (absent_below table c Hlt) as Habs.
  exists c. unfold Table.insert. run_py. fold table. fold c.
  unfold ODict.mem. rewrite Habs. simpl.
  rewrite !get_set_same. simpl. rewrite (set_absent c m _ Habs).
  repeat split. exact Hlt.
Qed.

Lemma insert_each_step m (mappings : list Content) self
    (final_doc_id : Z) (ids : list Z) :
  fst (Table.insert (PlainMapping m) self) = Return final_doc_id ->
  fst (insert_each mappings (snd (Table.insert (PlainMapping m) self)))
  = Return ids ->
  fst (insert_each (m :: mappings) self) = Return (final_doc_id :: ids)
  /\ snd (insert_each (m :: mappings) self)
     = snd (insert_each mappings (snd (Table.insert (PlainMapping m) self))).
Proof.
  intros Hone Hrest. cbn [insert_each]. unfold Py.bind, Py.ret.
  destruct (Table.insert (PlainMapping m) self) as [o self1].
  simpl in *. subst o.
  destruct (insert_each mappings self1) as [o self2].
  simpl in *. subst o. split; reflexivity.
Qed.
End FirstAllocation.

(** X8. A [Document] whose ID is not in the table is stored under that
    very ID: [insert] returns the ID, the document goes to the end of
    the table, the documents already there are untouched, the query
    cache is cleared, and the ID cursor is left as it was. *)
Theorem X8_insert_honours_a_free_explicit_id :
  forall (Q : Type) `(QueryLike Q) (self : Table.t Q) (d : Document),
  ODict.get (doc_id d) (Table.stored_table self) = None ->
  let r := Table.insert (IsDocument d) self in
  fst r = Return (doc_id d)
  /\ Table.stored_table (snd r)
     = Table.stored_table self ++ [(doc_id d, value d)]
  /\ Table._next_id (snd r) = Table._next_id self
  /\ LRUCache.cache (Table._query_cache (snd r)) = [].
Proof.
  intros Q HQ [name qc nid st tr fr] d. unfold Table.stored_table. simpl.
  intros Habs. unfold Table.insert. run_py.
  unfold ODict.mem. rewrite Habs. simpl.
  rewrite get_set_same. simpl. rewrite (set_absent _ _ _ Habs).
  repeat split.
Qed.

Lemma X8_witness :
  let r := Table.insert (IsDocument (mkDocument (x_is 7) 7))
             (table_on [(1, x_is 1)] (Some 10%nat)) in
  fst r = Return 7
  /\ Table.stored_table (snd r) = [(1, x_is 1); (7, x_is 7)]
  /\ Table._next_id (snd r) = None.
Proof.
  destruct (X8_insert_honours_a_free_explicit_id ExQuery _
              (table_on [(1, x_is 1)] (Some 10%nat))
              (mkDocument (x_is 7) 7) eq_refl)
    as (Hret & Hst & Hcur & _).
  cbv zeta. split; [exact Hret|]. split; [|exact Hcur].
  rewrite Hst. reflexivity.
Defined.

(** X9. When the cursor is set and above every ID of the table, the
    inserts of plain mappings one after the other return consecutive
    IDs starting at the cursor, append the documents to the table in
    that order under those IDs, and leave the cursor above the table
    again. [truncate] leaves the table in such a state with the cursor
    at 1, so the inserts after it get 1, 2, 3 and so on. *)
Theorem X9_inserts_after_a_set_cursor_are_consecutive :
  forall (Q : Type) `(QueryLike Q) (self : Table.t Q)
    (mappings : list Content),
  (forall c, cursor_ahead c self ->
     let r := insert_each mappings self in
     fst r = Return (ids_from c (length mappings))
     /\ Table.stored_table (snd r)
        = Table.stored_table self
          ++ combine (ids_from c (length mappings)) mappings
     /\ cursor_ahead (c + Z.of_nat (length mappings)) (snd r))
  /\ (let r := insert_each mappings (snd (Table.truncate self)) in
      fst r = Return (ids_from 1 (length mappings))
      /\ Table.stored_table (snd r)
         = combine (ids_from 1 (length mappings)) mappings).
Proof.
  intros Q HQ self mappings. split.
  - intros c Hc. now apply insert_each_ahead.
  - assert (Hc : cursor_ahead 1 (snd (Table.truncate self))
                 /\ Table.stored_table (snd (Table.truncate self)) = []).
    { destruct self as [name qc nid st tr fr].
      unfold cursor_ahead, Table.truncate, Table.stored_table. run_py.
      rewrite get_set_same. simpl. repeat split.
      intros k Hin. inversion Hin. }
    destruct Hc as [Hc Hempty].
    destruct (insert_each_ahead mappings 1 _ Hc) as (Hret & Hst & _).
    cbv zeta. split; [exact Hret|]. now rewrite Hst, Hempty.
Qed.

Lemma X9_witness :
  let self : Table.t ExQuery :=
    Table.mk "t" (LRUCache.__init__ (Some 10%nat)) (Some 5)
      (Some [("t"%string, [(2, x_is 2); (4, x_is 4)])]) [] 0 in
  fst (insert_each [x_is 10; x_is 20; x_is 30] self) = Return [5; 6; 7].
Proof.
  apply (proj1 (X9_inserts_after_a_set_cursor_are_consecutive ExQuery _
                  (Table.mk "t" (LRUCache.__init__ (Some 10%nat)) (Some 5)
                     (Some [("t"%string, [(2, x_is 2); (4, x_is 4)])]) [] 0)
                  [x_is 10; x_is 20; x_is 30]) 5).
  split; [reflexivity|]. vm_compute. intros k Hin.
  apply elem_of_cons in Hin as [->|Hin]; [reflexivity|].
  apply list_elem_of_singleton in Hin. subst k. reflexivity.
Defined.

(** X10. Through a new table object (cursor unset) the inserts of plain
    mappings one after the other also return consecutive IDs: they
    start at the ID that [_get_next_id] computes from the storage,
    which is above every ID of the table (1 on an empty table), and the
    documents are appended in that order under those IDs. The second
    insert is first given the first one's ID again and moved on to the
    next one when the table is written. *)
Theorem X10_inserts_through_a_new_table_are_consecutive :
  forall (Q : Type) `(QueryLike Q) (self : Table.t Q)
    (mappings : list Content),
  Table._next_id self = None ->
  exists c,
    fst (Table._get_next_id self) = Return c
    /\ (forall k, elem_of k (ODict.keys (Table.stored_table self)) -> k < c)
    /\ (Table.stored_table self = [] -> c = 1)
    /\ fst (insert_each mappings self)
       = Return (ids_from c (length mappings))
    /\ Table.stored_table (snd (insert_each mappings self))
       = Table.stored_table self
         ++ combine (ids_from c (length mappings)) mappings.
Proof.
  intros Q HQ self mappings Hunset.
  destruct mappings as [|m1 mappings].
  { destruct (insert_plain_unset [] self Hunset) as (c & Hid & Hlt & _).
    exists c. split; [exact Hid|]. split; [exact Hlt|]. split.
    - intros Hempty. destruct self as [name qc nid st tr fr].
      unfold Table.stored_table in Hempty. simpl in *. subst nid.
      revert Hid. run_py. rewrite Hempty. now intros [= <-].
    - simpl. now rewrite app_nil_r. }
  destruct (insert_plain_unset m1 self Hunset)
    as (c & Hid & Hlt & Hret1 & Hst1 & Hcur1).
  exists c. split; [exact Hid|]. split; [exact Hlt|]. split.
  { intros Hempty. destruct self as [name qc nid st tr fr].
    unfold Table.stored_table in Hempty. simpl in *. subst nid.
    revert Hid. run_py. rewrite Hempty. now intros [= <-]. }
  set (self1 := snd (Table.insert (PlainMapping m1) self)) in *.
  destruct mappings as [|m2 mappings].
  { destruct (insert_each_step m1 [] self c [] Hret1 eq_refl) as [Hr Hs].
    rewrite Hr, Hs. simpl. split; [reflexivity|exact Hst1]. }
  assert (Hmem : ODict.mem c (Table.stored_table self1) = true).
  { unfold ODict.mem. rewrite Hst1, get_app, (absent_below _ c Hlt). simpl.
    destruct (decide (c = c)); [reflexivity|contradiction]. }
  assert (Hle : forall k,
             elem_of k (ODict.keys (Table.stored_table self1)) -> k <= c).
  { intros k Hin. rewrite Hst1 in Hin.
    pose proof (below_snoc _ c (c + 1) m1 Hlt ltac:(lia) k Hin). lia. }
  destruct (insert_plain_on_max c m2 self1 Hcur1 Hmem Hle)
    as (Hret2 & Hst2 & Hc2).
  set (self2 := snd (Table.insert (PlainMapping m2) self1)) in *.
  destruct (insert_each_ahead mappings (c + 1 + 1) self2 Hc2)
    as (Hret3 & Hst3 & _).
  destruct (insert_each_step m2 mappings self1 _ _ Hret2 Hret3) as [Hr2 Hs2].
  fold self2 in Hs2.
  destruct (insert_each_step m1 (m2 :: mappings) self c _ Hret1 Hr2)
    as [Hr1 Hs1].
  fold self1 in Hs1.
  rewrite Hr1, Hs1, Hs2. split; [reflexivity|].
  rewrite Hst3, Hst2, Hst1, <- !app_assoc. reflexivity.
Qed.

Lemma X10_witness :
  exists c,
    fst (Table._get_next_id (table_on [(3, x_is 3); (8, x_is 8)]
                               (Some 10%nat))) = Return c
    /\ fst (insert_each [x_is 10; x_is 20; x_is 30]
              (table_on [(3, x_is 3); (8, x_is 8)] (Some 10%nat)))
       = Return (ids_from c 3).
Proof.
  destruct (X10_inserts_through_a_new_table_are_consecutive ExQuery _
              (table_on [(3, x_is 3); (8, x_is 8)] (Some 10%nat))
              [x_is 10; x_is 20; x_is 30] eq_refl)
    as (c & Hid & _ & _ & Hret & _).
  exists c. split; [exact Hid|exact Hret].
Defined.

Section BatchAllocation.
Context {Q : Type} `{QueryLike Q}.
Implicit Types (self : Table.t Q).

(** The first loop of [insert_multiple] on plain mappings, with the
    cursor set: it hands out the cursor's values and moves the cursor
    on. *)
Lemma insert_multiple_data_plain (mappings : list Content) (c : Z)
    name qc st tr fr :
  Table.insert_multiple_data (map PlainMapping mappings)
    (Table.mk name qc (Some c) st tr fr : Table.t Q)
  = (Return (combine (ids_from c (length mappings)) mappings),
     Table.mk name qc (Some (c + Z.of_nat (length mappings))) st tr fr).
Proof.
  revert c. induction mappings as [|m mappings IH]; intros c.
  - simpl. unfold Py.ret. now rewrite Z.add_0_r.
  - cbn [map Table.insert_multiple_data isinstance_Mapping negb length
           ids_from combine dict_of].
    unfold Py.bind at 1. unfold Table._get_next_id at 1. simpl.
    unfold Py.bind at 1. rewrite IH. unfold Py.ret. simpl.
    replace (c + Z.of_nat (S (length mappings)))
      with (c + 1 + Z.of_nat (length mappings)) by lia.
    reflexivity.
Qed.

(** The loop of its [updater] when the IDs are consecutive and above
    the table: nothing collides, every document is appended. *)
Lemma insert_multiple_updater_plain (mappings : list Content) (c : Z)
    (table : Tbl) self :
  (forall k, elem_of k (ODict.keys table) -> k < c) ->
  Table.insert_multiple_updater (map PlainMapping mappings)
    (combine (ids_from c (length mappings)) mappings) table self
  = (Return (ids_from c (length mappings),
             table ++ combine (ids_from c (length mappings)) mappings),
     self).
Proof.
  revert c table. induction mappings as [|m mappings IH]; intros c table Hlt.
  - simpl. unfold Py.ret. now rewrite app_nil_r.
  - cbn [map length ids_from combine Table.insert_multiple_updater].
    pose proof (absent_below table c Hlt) as Habs.
    unfold ODict.mem. rewrite Habs, (set_absent c m table Habs).
    unfold Py.bind.
    rewrite (IH (c + 1) (table ++ [(c, m)]))
      by (apply below_snoc; [exact Hlt|lia]).
    unfold Py.ret. now rewrite <- app_assoc.
Qed.
End BatchAllocation.

(** X11. When the cursor is set and above every ID of the table,
    [insert_multiple] of plain mappings returns consecutive IDs starting
    at the cursor, in the order of the batch, appends the documents to
    the table under those IDs with one write, clears the query cache
    and leaves the cursor above the table. *)
Theorem X11_insert_multiple_after_a_set_cursor :
  forall (Q : Type) `(QueryLike Q) (self : Table.t Q) (c : Z)
    (mappings : list Content),
  cursor_ahead c self ->
  let r := Table.insert_multiple (map PlainMapping mappings) self in
  fst r = Return (ids_from c (length mappings))
  /\ Table.stored_table (snd r)
     = Table.stored_table self
       ++ combine (ids_from c (length mappings)) mappings
  /\ Table._next_id (snd r) = Some (c + Z.of_nat (length mappings))
  /\ LRUCache.cache (Table._query_cache (snd r)) = []
  /\ length (List.filter is_write (Table.trace (snd r)))
     = S (length (List.filter is_write (Table.trace self))).
Proof.
  intros Q HQ [name qc nid st tr fr] c mappings Hc r.
  unfold cursor_ahead, Table.stored_table in *. simpl in Hc.
  destruct Hc as [-> Hlt]. cbn [Table._name Table.stored].
  set (table := default [] (ODict.get name (default [] st))) in *.
  set (ids := ids_from c (length mappings)).
  assert (Hr : r =
    (Return ids,
     Table.mk name (LRUCache.clear qc)
       (Some (c + Z.of_nat (length mappings)))
       (Some (ODict.set name (table ++ combine ids mappings) (default [] st)))
       ((tr ++ [EvRead])
        ++ [EvWrite (ODict.set name (table ++ combine ids mappings)
                       (default [] st))])
       fr)).
  { subst r. unfold Table.insert_multiple.
    assert (Hcheck :
      match map PlainMapping mappings with
      | [doc] =>
          if negb (isinstance_Mapping doc)
          then Py.raise (ValueError "Document is not a Mapping")
          else Py.ret tt
      | _ => Py.ret tt
      end = (Py.ret tt : Py.M (Table.t Q) unit)).
    { destruct mappings as [|m1 [|m2 mappings]]; reflexivity. }
    rewrite Hcheck. unfold Py.bind at 1. unfold Py.ret at 1.
    unfold Py.bind at 1. rewrite insert_multiple_data_plain.
    unfold Py.bind at 1. unfold Table._update_table, Table.storage_read.
    unfold Py.bind at 1. simpl. fold table. unfold Py.bind at 1.
    fold ids. rewrite (insert_multiple_updater_plain mappings c table _ Hlt).
    reflexivity. }
  rewrite Hr. simpl. rewrite get_set_same. simpl.
  repeat split. rewrite !List.filter_app, !length_app. simpl. lia.
Qed.

Lemma X11_witness :
  let self : Table.t ExQuery :=
    Table.mk "t" (LRUCache.__init__ (Some 10%nat)) (Some 5)
      (Some [("t"%string, [(2, x_is 2); (4, x_is 4)])]) [] 0 in
  fst (Table.insert_multiple
         (map PlainMapping [x_is 10; x_is 20; x_is 30]) self)
  = Return [5; 6; 7].
Proof.
  apply (X11_insert_multiple_after_a_set_cursor ExQuery _
           (Table.mk "t" (LRUCache.__init__ (Some 10%nat)) (Some 5)
              (Some [("t"%string, [(2, x_is 2); (4, x_is 4)])]) [] 0)
           5 [x_is 10; x_is 20; x_is 30]).
  split; [reflexivity|]. vm_compute. intros k Hin.
  apply elem_of_cons in Hin as [->|Hin]; [reflexivity|].
  apply list_elem_of_singleton in Hin. subst k. reflexivity.
Defined.

(* ===================================================================== *)
(** ** More of the table: updating and removing by ID *)
(* ===================================================================== *)

Section ByIds.
Context {Q : Type} `{QueryLike Q}.
Implicit Types (self : Table.t Q) (table : Tbl).

Lemma keys_set_present {K V : Type} `{EqDecision K} (k : K) (v v0 : V)
    (d : list (K * V)) :
  ODict.get k d = Some v0 -> ODict.keys (ODict.set k v d) = ODict.keys d.
Proof.
  induction d as [|[k' v'] d IH]; simpl; [discriminate|].
  destruct (decide (k = k')) as [->|Hne]; simpl; [reflexivity|].
  intros Hg. now rewrite IH.
Qed.

Lemma mem_set_present {K V : Type} `{EqDecision K} (k k' : K) (v v0 : V)
    (d : list (K * V)) :
  ODict.get k d = Some v0 ->
  ODict.mem k' (ODict.set k v d) = ODict.mem k' d.
Proof.
  intros Hg. unfold ODict.mem. destruct (decide (k = k')) as [<-|Hne].
  - now rewrite get_set_same, Hg.
  - now rewrite get_set_other.
Qed.

Lemma apply_fields_run (fields : Fields) (doc_id : Z) (doc : Content)
    table self :
  ODict.get doc_id table = Some doc ->
  Table.apply_fields fields doc_id doc table self =
  (Return (ODict.set doc_id (Table.updated_doc fields doc) table), self).
Proof.
  intros Hg. unfold Table.apply_fields, Table.updated_doc.
  destruct fields; [now rewrite Hg|reflexivity].
Qed.

Lemma update_by_ids_run (fields : Fields) (doc_ids : list Z) table self :
  NoDup doc_ids ->
  exists table',
    Table.update_by_ids fields doc_ids table self =
    (Return (List.filter (fun k => ODict.mem k table) doc_ids, table'), self)
    /\ ODict.keys table' = ODict.keys table
    /\ forall k,
         ODict.get k table' =
         if bool_decide (elem_of k doc_ids)
         then option_map (Table.updated_doc fields) (ODict.get k table)
         else ODict.get k table.
Proof.
  revert table. induction doc_ids as [|id doc_ids IH]; intros table Hnd.
  - exists table. repeat split.
  - apply NoDup_cons in Hnd as [Hout Hnd].
    cbn [Table.update_by_ids List.filter]. unfold ODict.mem at 1.
    destruct (ODict.get id table) as [doc|] eqn:E.
    + set (table1 := ODict.set id (Table.updated_doc fields doc) table).
      destruct (IH table1 Hnd) as (table' & Hrun & Hkeys & Hget).
      exists table'. split; [|split].
      * unfold Py.bind at 1. rewrite (apply_fields_run _ _ _ _ _ E).
        fold table1. unfold Py.bind. rewrite Hrun. unfold Py.ret.
        do 4 f_equal. apply List.filter_ext. intros k.
        apply (mem_set_present id k _ _ _ E).
      * rewrite Hkeys. apply (keys_set_present id _ _ _ E).
      * intros k. rewrite Hget.
        destruct (decide (k = id)) as [->|Hne].
        -- rewrite bool_decide_eq_false_2 by exact Hout.
           rewrite bool_decide_eq_true_2 by (now left).
           subst table1. now rewrite get_set_same, E.
        -- subst table1. rewrite (get_set_other id k) by congruence.
           destruct (decide (elem_of k doc_ids)) as [Hin|Hnin].
           ++ rewrite !bool_decide_eq_true_2;
                [reflexivity|now right|exact Hin].
           ++ rewrite !bool_decide_eq_false_2; [reflexivity| |exact Hnin].
              intros Hin. apply elem_of_cons in Hin as [?|?]; auto.
    + destruct (IH table Hnd) as (table' & Hrun & Hkeys & Hget).
      exists table'. split; [exact Hrun|]. split; [exact Hkeys|].
      intros k. rewrite Hget.
      destruct (decide (k = id)) as [->|Hne].
      * rewrite bool_decide_eq_false_2 by exact Hout.
        rewrite bool_decide_eq_true_2 by (now left).
        now rewrite E.
      * destruct (decide (elem_of k doc_ids)) as [Hin|Hnin].
        -- rewrite !bool_decide_eq_true_2; [reflexivity|now right|exact Hin].
        -- rewrite !bool_decide_eq_false_2; [reflexivity| |exact Hnin].
           intros Hin. apply elem_of_cons in Hin as [?|?]; auto.
Qed.

(** What [remove] does to the table for a list of IDs. *)
Lemma remove_by_ids_spec (doc_ids : list Z) table :
  let removed := fst (Table.remove_by_ids doc_ids table) in
  let table' := snd (Table.remove_by_ids doc_ids table) in
  (forall k, ODict.get k table' =
             if bool_decide (elem_of k doc_ids) then None
             else ODict.get k table)
  /\ (forall k, elem_of k removed <->
                elem_of k doc_ids /\ ODict.mem k table = true)
  /\ NoDup removed.
Proof.
  revert table. induction doc_ids as [|id doc_ids IH]; intros table; simpl.
  - split; [reflexivity|]. split; [|apply NoDup_nil_2].
    intros k. split; [intros Hin; inversion Hin|intros [Hin _]; inversion Hin].
  - destruct (ODict.mem id table) eqn:Hmem.
    + specialize (IH (ODict.del id table)).
      destruct (Table.remove_by_ids doc_ids (ODict.del id table))
        as [removed table']. simpl in *.
      destruct IH as (Hget & Hrem & Hnd). split; [|split].
      * intros k. rewrite Hget. destruct (decide (k = id)) as [->|Hne].
        -- rewrite (bool_decide_eq_true_2 (elem_of id (id :: doc_ids)))
             by (now left).
           rewrite get_del_same. now destruct (bool_decide _).
        -- rewrite (get_del_other id k) by congruence.
           destruct (decide (elem_of k doc_ids)) as [Hin|Hnin].
           ++ rewrite !bool_decide_eq_true_2;
                [reflexivity|now right|exact Hin].
           ++ rewrite !bool_decide_eq_false_2; [reflexivity| |exact Hnin].
              intros Hin. apply elem_of_cons in Hin as [?|?]; auto.
      * intros k. rewrite !elem_of_cons, Hrem. unfold ODict.mem.
        destruct (decide (k = id)) as [->|Hne].
        -- rewrite get_del_same. split; [intros [_|[_ ?]]|intros _; now left];
             [split; [now left|exact Hmem]|discriminate].
        -- rewrite (get_del_other id k) by congruence. tauto.
      * apply NoDup_cons. split; [|exact Hnd].
        intros Hin. apply Hrem in Hin as [_ Hin].
        unfold ODict.mem in Hin. now rewrite get_del_same in Hin.
    + specialize (IH table).
      destruct (Table.remove_by_ids doc_ids table) as [removed table'].
      simpl in *. destruct IH as (Hget & Hrem & Hnd). split; [|split].
      * intros k. rewrite Hget. destruct (decide (k = id)) as [->|Hne].
        -- rewrite (bool_decide_eq_true_2 (elem_of id (id :: doc_ids)))
             by (now left).
           unfold ODict.mem in Hmem.
           destruct (ODict.get id table); [discriminate|].
           now destruct (bool_decide _).
        -- destruct (decide (elem_of k doc_ids)) as [Hin|Hnin].
           ++ rewrite !bool_decide_eq_true_2;
                [reflexivity|now right|exact Hin].
           ++ rewrite !bool_decide_eq_false_2; [reflexivity| |exact Hnin].
              intros Hin. apply elem_of_cons in Hin as [?|?]; auto.
      * intros k. rewrite Hrem, elem_of_cons. split; [tauto|].
        intros [[->|Hin] Hk]; [congruence|tauto].
      * exact Hnd.
Qed.
End ByIds.

Section UpdateProtocol.
Context {Q : Type} `{QueryLike Q}.
Implicit Types (self : Table.t Q) (table : Tbl).

(** [_update_table] around an updater that returns: one read before it,
    one write of the changed table after it. *)
Lemma update_table_run {A} (updater : Tbl -> Py.M (Table.t Q) (A * Tbl))
    self (result : A) (table' : Tbl) (self1 : Table.t Q) :
  updater (Table.stored_table self) (Table.log [EvRead] self)
  = (Return (result, table'), self1) ->
  Table._update_table updater self =
  (Return result,
   snd (Table.storage_write
          (ODict.set (Table._name self) table'
             (default [] (Table.stored self))) self1)).
Proof.
  destruct self as [name qc nid st tr fr].
  unfold Table.stored_table, Table.log. simpl. intros Hrun.
  unfold Table._update_table, Table.storage_read, Table.log.
  unfold Py.bind at 1. simpl. unfold Py.bind at 1.
  rewrite Hrun. reflexivity.
Qed.

(** The same, for an updater that changes nothing but the table, with
    the cache cleared afterwards, as [update] and [remove] do. *)
Lemma protocol_run {A} (updater : Tbl -> Py.M (Table.t Q) (A * Tbl))
    self (result : A) (table' : Tbl) (events : list (Event Q)) :
  updater (Table.stored_table self) (Table.log [EvRead] self)
  = (Return (result, table'), Table.log events (Table.log [EvRead] self)) ->
  let r := (do x <- Table._update_table updater;
            do _ <- Table.cache_clear;
            Py.ret x) self in
  fst r = Return result
  /\ Table.stored_table (snd r) = table'
  /\ Table._next_id (snd r) = Table._next_id self
  /\ LRUCache.cache (Table._query_cache (snd r)) = []
  /\ Table.trace (snd r) =
     Table.trace self ++ [EvRead] ++ events
     ++ [EvWrite (ODict.set (Table._name self) table'
                    (default [] (Table.stored self)))].
Proof.
  intros Hrun r.
  assert (Hr : r =
    (Return result,
     snd (Table.cache_clear
            (snd (Table.storage_write
                    (ODict.set (Table._name self) table'
                       (default [] (Table.stored self)))
                    (Table.log events (Table.log [EvRead] self))))))).
  { subst r. unfold Py.bind at 1.
    now rewrite (update_table_run updater self result table' _ Hrun). }
  rewrite Hr. clear Hr Hrun r. destruct self as [name qc nid st tr fr].
  unfold Table.stored_table. run_py. rewrite get_set_same. simpl.
  repeat split. now rewrite <- !app_assoc.
Qed.
End UpdateProtocol.

(** X12. [update] with a list of IDs (without repetitions) never
    raises, whatever the condition given with it: it returns the IDs of
    the list that are in the table, in the list's order, and skips the
    others; the documents under those IDs are changed by the fields,
    every other document is untouched, and no document is added,
    removed or moved. On an empty table it returns the empty list. *)
Theorem X12_update_by_ids_skips_missing :
  forall (Q : Type) `(QueryLike Q) (self : Table.t Q) (fields : Fields)
    (cond : option Q) (doc_ids : list Z),
  NoDup doc_ids ->
  let table := Table.stored_table self in
  let r := Table.update fields cond (Some doc_ids) self in
  fst r = Return (List.filter (fun k => ODict.mem k table) doc_ids)
  /\ ODict.keys (Table.stored_table (snd r)) = ODict.keys table
  /\ (forall k,
        ODict.get k (Table.stored_table (snd r)) =
        if bool_decide (elem_of k doc_ids)
        then option_map (Table.updated_doc fields) (ODict.get k table)
        else ODict.get k table)
  /\ (table = [] -> fst r = Return [])
  /\ LRUCache.cache (Table._query_cache (snd r)) = [].
Proof.
  intros Q HQ self fields cond doc_ids Hnd table r.
  destruct (update_by_ids_run fields doc_ids table (Table.log [EvRead] self) Hnd)
    as (table' & Hrun & Hkeys & Hget).
  rewrite <- (log_nil (Table.log [EvRead] self)) in Hrun at 2.
  destruct (protocol_run
              (fun table => Table.update_by_ids fields doc_ids table)
              self _ table' [] Hrun)
    as (Hret & Hst & _ & Hcache & _).
  change (fst r = Return (List.filter (fun k => ODict.mem k table) doc_ids))
    in Hret.
  change (Table.stored_table (snd r) = table') in Hst.
  change (LRUCache.cache (Table._query_cache (snd r)) = []) in Hcache.
  rewrite Hst. split; [exact Hret|]. split; [exact Hkeys|].
  split; [exact Hget|]. split; [|exact Hcache].
  intros Hempty. rewrite Hret, Hempty.
  clear. induction doc_ids as [|k ks IH]; [reflexivity|exact IH].
Qed.

Lemma X12_witness :
  let self := table_on [(1, x_is 10); (2, x_is 20); (3, x_is 30)]
                (Some 10%nat) in
  let r := Table.update (FieldsMapping (x_is 0)) None (Some [3; 999; 1])
             self in
  fst r = Return [3; 1]
  /\ ODict.keys (Table.stored_table (snd r)) = [1; 2; 3].
Proof.
  destruct (X12_update_by_ids_skips_missing ExQuery _
              (table_on [(1, x_is 10); (2, x_is 20); (3, x_is 30)]
                 (Some 10%nat))
              (FieldsMapping (x_is 0)) None [3; 999; 1])
    as (Hret & Hkeys & _).
  - apply (bool_decide_unpack _). vm_compute. exact I.
  - cbv zeta. split; [exact Hret|]. rewrite Hkeys. reflexivity.
Defined.

(** X13. [remove] with a list of IDs never raises, whatever the
    condition given with it: afterwards none of the listed IDs is in
    the table, every other document is as before, and the list it
    returns holds exactly the listed IDs that were in the table, each
    once. *)
Theorem X13_remove_by_ids :
  forall (Q : Type) `(QueryLike Q) (self : Table.t Q) (cond : option Q)
    (doc_ids : list Z),
  let table := Table.stored_table self in
  let r := Table.remove cond (Some doc_ids) self in
  exists removed,
    fst r = Return removed
    /\ (forall k, elem_of k removed <->
                  elem_of k doc_ids /\ ODict.mem k table = true)
    /\ NoDup removed
    /\ (forall k,
          ODict.get k (Table.stored_table (snd r)) =
          if bool_decide (elem_of k doc_ids) then None
          else ODict.get k table)
    /\ LRUCache.cache (Table._query_cache (snd r)) = [].
Proof.
  intros Q HQ self cond doc_ids table r.
  destruct (remove_by_ids_spec doc_ids table) as (Hget & Hrem & Hnd).
  exists (fst (Table.remove_by_ids doc_ids table)).
  assert (Hrun :
    (fun table : Tbl =>
       (Py.ret (Table.remove_by_ids doc_ids table)
        : Py.M (Table.t Q) (list Z * Tbl)))
      (Table.stored_table self) (Table.log [EvRead] self)
    = (Return (fst (Table.remove_by_ids doc_ids table),
               snd (Table.remove_by_ids doc_ids table)),
       Table.log [] (Table.log [EvRead] self))).
  { rewrite log_nil. unfold Py.ret. fold table.
    now destruct (Table.remove_by_ids doc_ids table). }
  destruct (protocol_run _ self _ _ [] Hrun) as (Hret & Hst & _ & Hcache & _).
  assert (Hr : r = (do x <- Table._update_table
                               (fun table : Tbl =>
                                  Py.ret (Table.remove_by_ids doc_ids table));
                    do _ <- Table.cache_clear;
                    Py.ret x) self).
  { subst r. unfold Table.remove. destruct cond; reflexivity. }
  rewrite Hr, Hst. split; [exact Hret|]. split; [exact Hrem|].
  split; [exact Hnd|]. split; [exact Hget|exact Hcache].
Qed.

(* ===================================================================== *)
(** ** More of the table: updating and removing by condition *)
(* ===================================================================== *)

Section ByCondition.
Context {Q : Type} `{QueryLike Q}.
Variable cond : Q.
Implicit Types (self : Table.t Q) (table done todo : Tbl).

(** Whether the condition holds for an item of the table, and the
    calls of the condition that a loop over the items makes. *)
Definition selected (item : Z * Content) : bool :=
  query_call cond (snd item).

Definition calls (items : Tbl) : list (Event Q) :=
  map (fun item => EvCond cond (snd item)) items.

Lemma call_run (doc : Content) self :
  Table.call cond doc self =
  (Return (query_call cond doc), Table.log [EvCond cond doc] self).
Proof. reflexivity. Qed.

Lemma wf_middle done (id : Z) (doc : Content) todo :
  ODict.wf (done ++ (id, doc) :: todo) ->
  ODict.get id done = None /\ ODict.get id todo = None
  /\ ODict.wf (done ++ todo).
Proof.
  unfold ODict.wf, ODict.keys. rewrite !map_app. simpl.
  intros Hnd. apply NoDup_app in Hnd as (Hd & Hdisj & Ht).
  apply NoDup_cons in Ht as [Hout Ht]. split; [|split].
  - apply get_absent_keys. intros Hin. apply (Hdisj id Hin). now left.
  - now apply get_absent_keys.
  - apply NoDup_app. split; [exact Hd|]. split; [|exact Ht].
    intros k Hin Hin'. apply (Hdisj k Hin). now right.
Qed.

Section Update.
Variable fields : Fields.

Definition update_selected (item : Z * Content) : Z * Content :=
  if selected item
  then (fst item, Table.updated_doc fields (snd item))
  else item.

Lemma keys_update_selected table :
  ODict.keys (map update_selected table) = ODict.keys table.
Proof.
  unfold ODict.keys. rewrite map_map. apply map_ext.
  intros item. unfold update_selected. now destruct (selected item).
Qed.

Lemma update_by_cond_run todo done self :
  ODict.wf (done ++ todo) ->
  Table.update_by_cond fields (Some cond) todo
    (map update_selected done ++ todo) self =
  (Return (ODict.keys (List.filter selected todo),
           map update_selected done ++ map update_selected todo),
   Table.log (calls todo) self).
Proof.
  revert done self.
  induction todo as [|[id doc] todo IH]; intros done self Hwf.
  - simpl. unfold Py.ret. now rewrite log_nil.
  - destruct (wf_middle done id doc todo Hwf) as (Hd & _ & _).
    assert (Habs : ODict.get id (map update_selected done) = None).
    { apply get_absent_keys. rewrite keys_update_selected.
      now apply get_absent_keys. }
    assert (Hs : selected (id, doc) = query_call cond doc) by reflexivity.
    assert (Hu : update_selected (id, doc) =
                 if query_call cond doc
                 then (id, Table.updated_doc fields doc) else (id, doc))
      by reflexivity.
    specialize (IH (done ++ [(id, doc)])).
    rewrite map_app, <- !app_assoc in IH. cbn [map app] in IH.
    cbn [Table.update_by_cond List.filter map calls snd].
    unfold Py.bind at 1. rewrite call_run. rewrite Hs, Hu in *.
    destruct (query_call cond doc) eqn:Hsel.
    + unfold Py.bind at 1. rewrite apply_fields_run
        by (rewrite get_app, Habs; simpl;
            destruct (decide (id = id)); [reflexivity|contradiction]).
      rewrite (set_in_place id _ doc _ todo Habs).
      unfold Py.bind. rewrite IH by exact Hwf.
      unfold Py.ret. rewrite log_log. reflexivity.
    + rewrite IH by exact Hwf. rewrite log_log. reflexivity.
Qed.
End Update.

Lemma remove_by_cond_run todo done self :
  ODict.wf (done ++ todo) ->
  Table.remove_by_cond cond todo (done ++ todo) self =
  (Return (ODict.keys (List.filter selected todo),
           done ++ List.filter (fun item => negb (selected item)) todo),
   Table.log (calls todo) self).
Proof.
  revert done self.
  induction todo as [|[id doc] todo IH]; intros done self Hwf.
  - simpl. unfold Py.ret. now rewrite log_nil.
  - destruct (wf_middle done id doc todo Hwf) as (Hd & Ht & Hwf').
    assert (Hs : selected (id, doc) = query_call cond doc) by reflexivity.
    cbn [Table.remove_by_cond List.filter map calls snd].
    unfold Py.bind at 1. rewrite call_run. rewrite Hs.
    destruct (query_call cond doc) eqn:Hsel; cbn [negb].
    + assert (Hdel : ODict.del id (done ++ (id, doc) :: todo) = done ++ todo).
      { rewrite del_app, (del_absent id done Hd). simpl.
        destruct (decide (id = id)); [|contradiction].
        now rewrite (del_absent id todo Ht). }
      rewrite Hdel. unfold Py.bind. rewrite (IH done _ Hwf').
      unfold Py.ret. rewrite log_log. reflexivity.
    + specialize (IH (done ++ [(id, doc)])).
      rewrite <- !app_assoc in IH. simpl in IH.
      rewrite IH by exact Hwf. rewrite log_log. reflexivity.
Qed.
End ByCondition.

(** X14. On a well-formed table, [remove] with a condition only calls
    the condition once on every document, in the table's order, takes
    out exactly the documents it holds for and keeps the others as they
    were and in their order; it returns the IDs of the removed
    documents in the table's order, writes once and clears the query
    cache. *)
Theorem X14_remove_by_condition :
  forall (Q : Type) `(QueryLike Q) (self : Table.t Q) (cond : Q),
  ODict.wf (Table.stored_table self) ->
  let table := Table.stored_table self in
  let r := Table.remove (Some cond) None self in
  fst r = Return (ODict.keys (List.filter (selected cond) table))
  /\ Table.stored_table (snd r)
     = List.filter (fun item => negb (selected cond item)) table
  /\ LRUCache.cache (Table._query_cache (snd r)) = []
  /\ exists raw,
       Table.trace (snd r) =
       Table.trace self ++ [EvRead] ++ calls cond table ++ [EvWrite raw].
Proof.
  intros Q HQ self cond Hwf table r.
  pose proof (remove_by_cond_run cond table [] (Table.log [EvRead] self) Hwf)
    as Hrun. simpl in Hrun.
  destruct (protocol_run (fun table => Table.remove_by_cond cond table table)
              self _ _ _ Hrun)
    as (Hret & Hst & _ & Hcache & Htrace).
  split; [exact Hret|]. split; [exact Hst|]. split; [exact Hcache|].
  eexists. exact Htrace.
Qed.

Lemma X14_witness :
  let self := table_on [(1, x_is 1); (2, x_is 2); (3, x_is 1)]
                (Some 10%nat) in
  let r := Table.remove (Some (QEq "x" (VInt 1))) None self in
  fst r = Return [1; 3]
  /\ Table.stored_table (snd r) = [(2, x_is 2)].
Proof.
  destruct (X14_remove_by_condition ExQuery _
              (table_on [(1, x_is 1); (2, x_is 2); (3, x_is 1)]
                 (Some 10%nat))
              (QEq "x" (VInt 1)))
    as (Hret & Hst & _).
  - apply (bool_decide_unpack _). vm_compute. exact I.
  - cbv zeta. rewrite Hret, Hst. split; reflexivity.
Defined.

(** X15. On a well-formed table, [update] with a condition (and no IDs)
    calls the condition once on every document, in the table's order
    and on the content as it was stored; it changes exactly the
    documents the condition holds for, by the fields, and leaves the
    others, and the order and the IDs of all, as they were; it returns
    the IDs of the changed documents in the table's order. *)
Theorem X15_update_by_condition :
  forall (Q : Type) `(QueryLike Q) (self : Table.t Q) (fields : Fields)
    (cond : Q),
  ODict.wf (Table.stored_table self) ->
  let table := Table.stored_table self in
  let r := Table.update fields (Some cond) None self in
  fst r = Return (ODict.keys (List.filter (selected cond) table))
  /\ Table.stored_table (snd r) = map (update_selected cond fields) table
  /\ ODict.keys (Table.stored_table (snd r)) = ODict.keys table
  /\ LRUCache.cache (Table._query_cache (snd r)) = []
  /\ exists raw,
       Table.trace (snd r) =
       Table.trace self ++ [EvRead] ++ calls cond table ++ [EvWrite raw].
Proof.
  intros Q HQ self fields cond Hwf table r.
  pose proof (update_by_cond_run cond fields table []
                (Table.log [EvRead] self) Hwf) as Hrun. simpl in Hrun.
  destruct (protocol_run
              (fun table => Table.update_by_cond fields (Some cond) table table)
              self _ _ _ Hrun)
    as (Hret & Hst & _ & Hcache & Htrace).
  split; [exact Hret|]. split; [exact Hst|]. split.
  { change (ODict.keys (Table.stored_table (snd r)) = ODict.keys table).
    change (Table.stored_table (snd r)
            = map (update_selected cond fields) table) in Hst.
    rewrite Hst. apply keys_update_selected. }
  split; [exact Hcache|]. eexists. exact Htrace.
Qed.

Lemma X15_witness :
  let self := table_on [(1, x_is 1); (2, x_is 2); (3, x_is 1)]
                (Some 10%nat) in
  let r := Table.update (FieldsMapping (x_is 0)) (Some (QEq "x" (VInt 1)))
             None self in
  fst r = Return [1; 3]
  /\ Table.stored_table (snd r) = [(1, x_is 0); (2, x_is 2); (3, x_is 0)].
Proof.
  destruct (X15_update_by_condition ExQuery _
              (table_on [(1, x_is 1); (2, x_is 2); (3, x_is 1)]
                 (Some 10%nat))
              (FieldsMapping (x_is 0)) (QEq "x" (VInt 1)))
    as (Hret & Hst & _).
  - apply (bool_decide_unpack _). vm_compute. exact I.
  - cbv zeta. rewrite Hret, Hst. split; reflexivity.
Defined.

(* ===================================================================== *)
(** ** More of the table: the other tables of the storage *)
(* ===================================================================== *)

Section OtherTables.
Context {Q : Type} `{QueryLike Q}.
Implicit Types (self : Table.t Q).

(** [m] leaves the storage and the table's name as they are. *)
Definition keeps_store {A} (m : Py.M (Table.t Q) A) : Prop :=
  forall self,
    Table.stored (snd (m self)) = Table.stored self
    /\ Table._name (snd (m self)) = Table._name self.

(** [m] leaves the table's name and the tables under other names as
    they are. *)
Definition keeps_others {A} (m : Py.M (Table.t Q) A) : Prop :=
  forall self,
    Table._name (snd (m self)) = Table._name self
    /\ forall other, Table._name self <> other ->
         ODict.get other (default [] (Table.stored (snd (m self)))) =
         ODict.get other (default [] (Table.stored self)).

Lemma keeps_ret {A} (a : A) : keeps_store (Py.ret a).
Proof. intros self. now split. Qed.

Lemma keeps_raise {A} (e : Exception) :
  keeps_store (Py.raise e : Py.M (Table.t Q) A).
Proof. intros self. now split. Qed.

Lemma keeps_bind {A B} (m : Py.M (Table.t Q) A)
    (k : A -> Py.M (Table.t Q) B) :
  keeps_store m -> (forall a, keeps_store (k a)) ->
  keeps_store (Py.bind m k).
Proof.
  intros Hm Hk self. unfold Py.bind. specialize (Hm self).
  destruct (m self) as [[a|e] self1]; simpl in *; [|exact Hm].
  destruct (Hk a self1) as [Hs Hn]. destruct Hm as [Hs' Hn'].
  split; congruence.
Qed.

Lemma keeps_get_next_id : keeps_store (Table._get_next_id (Q := Q)).
Proof. intros [name qc [c|] st tr fr]; run_py; now split. Qed.

Lemma keeps_call (cond : Q) (doc : Content) :
  keeps_store (Table.call cond doc).
Proof. intros self. now split. Qed.

Lemma keeps_cache_clear : keeps_store (Table.cache_clear (Q := Q)).
Proof. intros self. now split. Qed.

Lemma keeps_apply_fields (fields : Fields) (doc_id : Z) (doc : Content)
    (table : Tbl) :
  keeps_store (Table.apply_fields (Q := Q) fields doc_id doc table).
Proof.
  unfold Table.apply_fields. destruct fields; [|apply keeps_ret].
  destruct (ODict.get doc_id table); [apply keeps_ret|apply keeps_raise].
Qed.

Lemma keeps_insert_multiple_data (documents : list PyObj) :
  keeps_store (Table.insert_multiple_data (Q := Q) documents).
Proof.
  induction documents as [|doc documents IH]; simpl; [apply keeps_ret|].
  destruct (negb (isinstance_Mapping doc)); [apply keeps_raise|].
  apply keeps_bind.
  - destruct doc; [apply keeps_get_next_id|apply keeps_get_next_id|
                   apply keeps_ret].
  - intros doc_id. apply keeps_bind; [exact IH|]. intros data.
    apply keeps_ret.
Qed.

Lemma keeps_insert_multiple_updater (documents : list PyObj)
    (data : list (Z * Content)) (table : Tbl) :
  keeps_store (Table.insert_multiple_updater (Q := Q) documents data table).
Proof.
  revert data table.
  induction documents as [|document documents IH]; intros data table;
    simpl; [apply keeps_ret|].
  destruct data as [|[doc_id doc] data]; [apply keeps_ret|].
  destruct (ODict.mem doc_id table).
  - destruct (isinstance_Document document); [apply keeps_raise|].
    apply keeps_bind; [apply keeps_get_next_id|]. intros new_id.
    apply keeps_bind; [apply IH|]. intros [ids table']. apply keeps_ret.
  - apply keeps_bind; [apply IH|]. intros [ids table']. apply keeps_ret.
Qed.

Lemma keeps_update_by_ids (fields : Fields) (doc_ids : list Z)
    (table : Tbl) :
  keeps_store (Table.update_by_ids (Q := Q) fields doc_ids table).
Proof.
  revert table. induction doc_ids as [|doc_id doc_ids IH]; intros table;
    simpl; [apply keeps_ret|].
  destruct (ODict.get doc_id table); [|apply IH].
  apply keeps_bind; [apply keeps_apply_fields|]. intros table1.
  apply keeps_bind; [apply IH|]. intros [ids table']. apply keeps_ret.
Qed.

Lemma keeps_update_by_cond (fields : Fields) (cond : option Q)
    (table_items table : Tbl) :
  keeps_store (Table.update_by_cond fields cond table_items table).
Proof.
  revert table.
  induction table_items as [|[doc_id doc] table_items IH]; intros table;
    simpl; [apply keeps_ret|].
  apply keeps_bind.
  - destruct cond; [apply keeps_call|apply keeps_ret].
  - intros [|]; [|apply IH].
    apply keeps_bind; [apply keeps_apply_fields|]. intros table1.
    apply keeps_bind; [apply IH|]. intros [ids table']. apply keeps_ret.
Qed.

Lemma keeps_update_by_cond_no_mapping (cond : option Q)
    (table_items table : Tbl) :
  keeps_store (Table.update_by_cond_no_mapping cond table_items table).
Proof.
  revert table.
  induction table_items as [|[doc_id doc] table_items IH]; intros table;
    simpl; [apply keeps_ret|].
  apply keeps_bind.
  - destruct cond; [apply keeps_call|apply keeps_ret].
  - intros [|]; [apply keeps_raise|apply IH].
Qed.

Lemma keeps_remove_by_cond (cond : Q) (table_items table : Tbl) :
  keeps_store (Table.remove_by_cond cond table_items table).
Proof.
  revert table.
  induction table_items as [|[doc_id doc] table_items IH]; intros table;
    simpl; [apply keeps_ret|].
  apply keeps_bind; [apply keeps_call|].
  intros [|]; [|apply IH].
  apply keeps_bind; [apply IH|]. intros [ids table']. apply keeps_ret.
Qed.

Lemma others_of_keeps {A} (m : Py.M (Table.t Q) A) :
  keeps_store m -> keeps_others m.
Proof.
  intros Hm self. destruct (Hm self) as [Hs Hn].
  split; [exact Hn|]. intros other _. now rewrite Hs.
Qed.

Lemma others_bind {A B} (m : Py.M (Table.t Q) A)
    (k : A -> Py.M (Table.t Q) B) :
  keeps_others m -> (forall a, keeps_others (k a)) ->
  keeps_others (Py.bind m k).
Proof.
  intros Hm Hk self. unfold Py.bind. specialize (Hm self).
  destruct (m self) as [[a|e] self1]; simpl in *; [|exact Hm].
  destruct (Hk a self1) as [Hn Ho]. destruct Hm as [Hn' Ho'].
  split; [congruence|]. intros other Hne.
  rewrite Ho by congruence. now apply Ho'.
Qed.

Lemma update_table_raise {A} (updater : Tbl -> Py.M (Table.t Q) (A * Tbl))
    self (e : Exception) (self1 : Table.t Q) :
  updater (Table.stored_table self) (Table.log [EvRead] self)
  = (Raise e, self1) ->
  Table._update_table updater self = (Raise e, self1).
Proof.
  destruct self as [name qc nid st tr fr].
  unfold Table.stored_table, Table.log. simpl. intros Hrun.
  unfold Table._update_table, Table.storage_read, Table.log.
  unfold Py.bind at 1. simpl. unfold Py.bind at 1.
  rewrite Hrun. reflexivity.
Qed.

(** [_update_table] writes this table's entry of the snapshot it read
    and no other. *)
Lemma others_update_table {A} (updater : Tbl -> Py.M (Table.t Q) (A * Tbl)) :
  (forall table, keeps_store (updater table)) ->
  keeps_others (Table._update_table updater).
Proof.
  intros Hup self.
  destruct (Hup (Table.stored_table self) (Table.log [EvRead] self))
    as [Hs Hn].
  destruct (updater (Table.stored_table self) (Table.log [EvRead] self))
    as [[[a t']|e] self1] eqn:E; simpl in Hs, Hn.
  - rewrite (update_table_run updater self a t' self1 E). simpl.
    split; [exact Hn|]. intros other Hne. now apply get_set_other.
  - rewrite (update_table_raise updater self e self1 E). simpl.
    split; [exact Hn|]. intros other _. now rewrite Hs.
Qed.

Lemma others_after_update_table {A}
    (updater : Tbl -> Py.M (Table.t Q) (A * Tbl)) :
  (forall table, keeps_store (updater table)) ->
  keeps_others (do x <- Table._update_table updater;
                do _ <- Table.cache_clear;
                Py.ret x).
Proof.
  intros Hup. apply others_bind; [now apply others_update_table|].
  intros x. apply others_of_keeps.
  apply keeps_bind; [apply keeps_cache_clear|]. intros _. apply keeps_ret.
Qed.

Lemma others_insert (document : PyObj) :
  keeps_others (Table.insert (Q := Q) document).
Proof.
  unfold Table.insert.
  destruct (negb (isinstance_Mapping document));
    [apply others_of_keeps, keeps_raise|].
  apply others_bind.
  - apply others_of_keeps.
    destruct document;
      try (apply keeps_bind; [apply keeps_get_next_id|];
           intros doc_id; apply keeps_ret).
    apply keeps_ret.
  - intros [doc_id document']. apply others_after_update_table.
    intros table. destruct (ODict.mem doc_id table); [|apply keeps_ret].
    destruct (isinstance_Document document'); [apply keeps_raise|].
    apply keeps_bind; [apply keeps_get_next_id|]. intros final_doc_id.
    apply keeps_ret.
Qed.

Lemma others_insert_multiple (documents : list PyObj) :
  keeps_others (Table.insert_multiple (Q := Q) documents).
Proof.
  unfold Table.insert_multiple. apply others_bind.
  - apply others_of_keeps.
    destruct documents as [|doc [|doc' rest]]; try apply keeps_ret.
    destruct (negb (isinstance_Mapping doc));
      [apply keeps_raise|apply keeps_ret].
  - intros _. apply others_bind.
    + apply others_of_keeps, keeps_insert_multiple_data.
    + intros data. apply others_after_update_table.
      intros table. apply keeps_insert_multiple_updater.
Qed.

Lemma others_update (fields : Fields) (cond : option Q)
    (doc_ids : option (list Z)) :
  keeps_others (Table.update fields cond doc_ids).
Proof.
  unfold Table.update. apply others_after_update_table. intros table.
  destruct doc_ids; [apply keeps_update_by_ids|apply keeps_update_by_cond].
Qed.

Lemma others_remove (cond : option Q) (doc_ids : option (list Z)) :
  keeps_others (Table.remove cond doc_ids).
Proof.
  unfold Table.remove.
  destruct cond as [cond|], doc_ids as [doc_ids|];
    try (apply others_after_update_table; intros table;
         first [apply keeps_ret|apply keeps_remove_by_cond]).
  apply others_of_keeps, keeps_raise.
Qed.

Lemma others_truncate : keeps_others (Table.truncate (Q := Q)).
Proof.
  unfold Table.truncate. apply others_bind.
  - apply others_update_table. intros table. apply keeps_ret.
  - intros _. apply others_of_keeps.
    apply keeps_bind; [apply keeps_cache_clear|]. intros _ self. now split.
Qed.

Lemma others_upsert (document : PyObj) (cond : option Q) :
  keeps_others (Table.upsert document cond).
Proof.
  unfold Table.upsert. destruct document as [|m|d].
  - apply others_bind.
    { apply others_after_update_table. intros table.
      apply keeps_update_by_cond_no_mapping. }
    intros [|id ids]; [|apply others_of_keeps, keeps_ret].
    apply others_bind; [apply others_insert|]. intros id.
    apply others_of_keeps, keeps_ret.
  - apply others_bind; [apply others_update|].
    intros [|id ids]; [|apply others_of_keeps, keeps_ret].
    apply others_bind; [apply others_insert|]. intros id.
    apply others_of_keeps, keeps_ret.
  - apply others_bind; [apply others_update|].
    intros [|id ids]; [|apply others_of_keeps, keeps_ret].
    apply others_bind; [apply others_insert|]. intros id.
    apply others_of_keeps, keeps_ret.
Qed.

Lemma others_mutate (c : Table.Mutation Q) : keeps_others (Table.mutate c).
Proof.
  destruct c; simpl;
    try (apply others_bind; [|intros x; apply others_of_keeps, keeps_ret]).
  - apply others_insert.
  - apply others_insert_multiple.
  - apply others_update.
  - apply others_remove.
  - apply others_truncate.
Qed.
End OtherTables.

(** X16. A table only ever writes its own entry of the storage: after a
    call of [insert], [insert_multiple], [update], [remove], [truncate]
    or [upsert], whether it returns or raises, the tables stored under
    every other name are what they were, and the table's own name is
    unchanged. *)
Theorem X16_other_tables_are_untouched :
  forall (Q : Type) `(QueryLike Q) (self : Table.t Q) (other : string),
  Table._name self <> other ->
  (forall c : Table.Mutation Q,
     Table._name (snd (Table.mutate c self)) = Table._name self
     /\ ODict.get other (default [] (Table.stored (snd (Table.mutate c self))))
        = ODict.get other (default [] (Table.stored self)))
  /\ (forall document cond,
        Table._name (snd (Table.upsert document cond self)) = Table._name self
        /\ ODict.get other
             (default [] (Table.stored (snd (Table.upsert document cond self))))
           = ODict.get other (default [] (Table.stored self))).
Proof.
  intros Q HQ self other Hne. split.
  - intros c. destruct (others_mutate c self) as [Hn Ho].
    split; [exact Hn|now apply Ho].
  - intros document cond.
    destruct (others_upsert document cond self) as [Hn Ho].
    split; [exact Hn|now apply Ho].
Qed.

Lemma X16_witness :
  let self : Table.t ExQuery :=
    Table.__init__
      (Some [("t"%string, [(1, x_is 1)]); ("u"%string, [(7, x_is 7)])])
      "t" (Some 10%nat) in
  ODict.get "u"%string
    (default []
       (Table.stored
          (snd (Table.mutate (Table.CallRemove None (Some [1])) self))))
  = Some [(7, x_is 7)].
Proof.
  apply (proj1 (X16_other_tables_are_untouched ExQuery _
                  (Table.__init__
                     (Some [("t"%string, [(1, x_is 1)]);
                            ("u"%string, [(7, x_is 7)])])
                     "t" (Some 10%nat))
                  "u"%string ltac:(vm_compute; discriminate))
           (Table.CallRemove None (Some [1]))).
Defined.

(* ===================================================================== *)
(** ** More of the table: reading by condition, and upsert on a hit *)
(* ===================================================================== *)

(** X17. When the query is not in the cache, [get] with a condition
    returns the first document of the table, in the table's order, for
    which the condition holds, or [None] when there is none, and
    [count] returns how many there are. [contains] with a condition
    takes the truth value of what [get] returns, and a document is a
    dictionary: so it is true when that first document has some
    content, and false both when no document matches and when the
    first match is a document without any field. *)
Theorem X17_get_by_condition_is_the_first_match :
  forall (Q : Type) `(QueryLike Q) (self : Table.t Q) (cond : Q),
  ODict.get cond (LRUCache.cache (Table._query_cache self)) = None ->
  let matching :=
    List.filter (fun doc => query_call cond (value doc))
      (Table.documents_of (Table.stored_table self)) in
  fst (Table.get (Some cond) None None self)
  = Return (match matching with doc :: _ => GDoc doc | [] => GNone end)
  /\ fst (Table.count cond self) = Return (length matching)
  /\ fst (Table.contains (Some cond) None self)
     = Return (match matching with
               | doc :: _ => match value doc with [] => false | _ => true end
               | [] => false
               end).
Proof.
  intros Q HQ self cond Hmiss matching.
  pose proof (search_miss cond self Hmiss) as Hsearch.
  assert (Hget : fst (Table.get (Some cond) None None self)
    = Return (match matching with doc :: _ => GDoc doc | [] => GNone end)).
  { unfold Table.get, Py.bind. rewrite Hsearch. reflexivity. }
  split; [exact Hget|]. split.
  - unfold Table.count, Py.bind. rewrite Hsearch. reflexivity.
  - unfold Table.contains. unfold Py.bind at 1.
    destruct (Table.get (Some cond) None None self) as [o self1].
    simpl in Hget. subst o. simpl. now destruct matching.
Qed.

Lemma X17_witness :
  let self := table_on [(1, []); (2, x_is 2)] (Some 10%nat) in
  fst (Table.get (Some QAll) None None self)
  = Return (GDoc (mkDocument [] 1))
  /\ fst (Table.contains (Some QAll) None self) = Return false.
Proof.
  destruct (X17_get_by_condition_is_the_first_match ExQuery _
              (table_on [(1, []); (2, x_is 2)] (Some 10%nat)) QAll eq_refl)
    as (Hget & _ & Hcontains).
  split; [exact Hget|exact Hcontains].
Defined.

(** X18. [upsert] of a [Document] whose ID is in the table changes that
    document in place: it returns the list with that ID alone, merges
    the document's fields into the stored content, leaves every other
    document, the order and the IDs as they were, and inserts
    nothing. *)
Theorem X18_upsert_updates_an_existing_id :
  forall (Q : Type) `(QueryLike Q) (self : Table.t Q) (d : Document)
    (cond : option Q) (old : Content),
  ODict.get (doc_id d) (Table.stored_table self) = Some old ->
  let table := Table.stored_table self in
  let r := Table.upsert (IsDocument d) cond self in
  fst r = Return [doc_id d]
  /\ ODict.get (doc_id d) (Table.stored_table (snd r))
     = Some (ODict.update old (value d))
  /\ ODict.keys (Table.stored_table (snd r)) = ODict.keys table
  /\ (forall k, k <> doc_id d ->
        ODict.get k (Table.stored_table (snd r)) = ODict.get k table)
  /\ Table._next_id (snd r) = Table._next_id self.
Proof.
  intros Q HQ self d cond old Hold table r.
  assert (Hnd : NoDup [doc_id d]) by apply NoDup_singleton.
  destruct (update_by_ids_run (FieldsMapping (value d)) [doc_id d] table
              (Table.log [EvRead] self) Hnd)
    as (table' & Hrun & Hkeys & Hget).
  rewrite <- (log_nil (Table.log [EvRead] self)) in Hrun at 2.
  destruct (protocol_run
              (fun table =>
                 Table.update_by_ids (FieldsMapping (value d)) [doc_id d] table)
              self _ table' [] Hrun)
    as (Hret & Hst & Hcur & _).
  assert (Hmem : List.filter (fun k => ODict.mem k table) [doc_id d]
                 = [doc_id d]).
  { simpl. unfold ODict.mem. subst table. now rewrite Hold. }
  rewrite Hmem in Hret.
  assert (Hr : r = Table.update (FieldsMapping (value d)) None
                     (Some [doc_id d]) self).
  { subst r. unfold Table.upsert. unfold Py.bind at 1.
    change ((do x <- Table._update_table
                       (fun table =>
                          Table.update_by_ids (FieldsMapping (value d))
                            [doc_id d] table);
             do _ <- Table.cache_clear;
             Py.ret x) self)
      with (Table.update (FieldsMapping (value d)) None
              (Some [doc_id d]) self) in Hret.
    destruct (Table.update (FieldsMapping (value d)) None
                (Some [doc_id d]) self) as [[updated|e] self1];
      simpl in Hret; [|discriminate].
    injection Hret as ->. reflexivity. }
  rewrite Hr.
  change (Table.update (FieldsMapping (value d)) None (Some [doc_id d]) self)
    with ((do x <- Table._update_table
                     (fun table =>
                        Table.update_by_ids (FieldsMapping (value d))
                          [doc_id d] table);
           do _ <- Table.cache_clear;
           Py.ret x) self).
  rewrite Hst. split; [exact Hret|]. split.
  { rewrite Hget, bool_decide_eq_true_2 by (now left).
    subst table. now rewrite Hold. }
  split; [exact Hkeys|]. split; [|exact Hcur].
  intros k Hne. rewrite Hget, bool_decide_eq_false_2; [reflexivity|].
  intros Hin. apply list_elem_of_singleton in Hin. contradiction.
Qed.

Lemma X18_witness :
  let self := table_on [(1, x_is 1); (5, x_is 5)] (Some 10%nat) in
  let r := Table.upsert (IsDocument (mkDocument (x_is 50) 5)) None self in
  fst r = Return [5]
  /\ ODict.get 5 (Table.stored_table (snd r)) = Some (x_is 50)
  /\ ODict.keys (Table.stored_table (snd r)) = [1; 5].
Proof.
  destruct (X18_upsert_updates_an_existing_id ExQuery _
              (table_on [(1, x_is 1); (5, x_is 5)] (Some 10%nat))
              (mkDocument (x_is 50) 5) None (x_is 5) eq_refl)
    as (Hret & Hget & Hkeys & _).
  cbv zeta. split; [exact Hret|]. split; [exact Hget|].
  rewrite Hkeys. reflexivity.
Defined.

(* ===================================================================== *)
(** ** More of the table: an allocated ID that is taken *)
(* ===================================================================== *)

(** X19. When the cursor stands on an ID that is in the table, [insert]
    of a plain mapping does not raise: it takes the next value of the
    cursor, returns it and stores the mapping under it without looking
    whether that ID is free. When it is free the document is appended;
    when a document is stored under it, that document is replaced by
    the new one, in its place, and no document is added. Every other
    document is untouched, and the cursor ends two above where it
    was. *)
Theorem X19_insert_on_a_taken_id_uses_the_next_cursor_value :
  forall (Q : Type) `(QueryLike Q) (self : Table.t Q) (c : Z) (m : Content),
  Table._next_id self = Some c ->
  ODict.mem c (Table.stored_table self) = true ->
  let table := Table.stored_table self in
  let r := Table.insert (PlainMapping m) self in
  fst r = Return (c + 1)
  /\ Table._next_id (snd r) = Some (c + 1 + 1)
  /\ ODict.get (c + 1) (Table.stored_table (snd r)) = Some m
  /\ (forall k, c + 1 <> k ->
        ODict.get k (Table.stored_table (snd r)) = ODict.get k table)
  /\ (ODict.get (c + 1) table = None ->
      Table.stored_table (snd r) = table ++ [(c + 1, m)])
  /\ (forall old, ODict.get (c + 1) table = Some old ->
      ODict.keys (Table.stored_table (snd r)) = ODict.keys table).
Proof.
  intros Q HQ [name qc nid st tr fr] c m. unfold Table.stored_table. simpl.
  intros -> Hmem. unfold Table.insert. run_py. rewrite Hmem. simpl.
  rewrite !get_set_same. simpl.
  split; [reflexivity|]. split; [reflexivity|].
  split; [apply get_set_same|].
  split; [intros k Hne; now apply get_set_other|].
  split; [intros Habs; now apply set_absent|].
  intros old Hold. now apply keys_set_present with old.
Qed.

(** After [truncate], two documents inserted with the explicit IDs 1 and
    2, then a plain mapping: it is given 1, which is taken, moves on to
    2, and replaces the document stored there. *)
Lemma X19_witness :
  let self :=
    snd (then_ (then_ (Table.truncate (empty_table (Some 10%nat)))
                  (Table.insert (IsDocument (mkDocument (x_is 10) 1))))
           (Table.insert (IsDocument (mkDocument (x_is 20) 2)))) in
  let r := Table.insert (PlainMapping (x_is 30)) self in
  Table.stored_table self = [(1, x_is 10); (2, x_is 20)]
  /\ fst r = Return 2
  /\ Table.stored_table (snd r) = [(1, x_is 10); (2, x_is 30)].
Proof.
  destruct (X19_insert_on_a_taken_id_uses_the_next_cursor_value ExQuery _
              (snd (then_ (then_ (Table.truncate (empty_table (Some 10%nat)))
                             (Table.insert
                                (IsDocument (mkDocument (x_is 10) 1))))
                      (Table.insert (IsDocument (mkDocument (x_is 20) 2)))))
              1 (x_is 30) eq_refl eq_refl)
    as (Hret & _).
  cbv zeta. split; [reflexivity|]. split; [exact Hret|].
  vm_compute. reflexivity.
Defined.

(* ===================================================================== *)
(** ** The query cache between two searches *)
(* ===================================================================== *)

Section Retention.
Context {Q : Type} `{QueryLike Q}.
Variable cond : Q.
Variable docs : PyList.
Variable allowed : list Q.
Hypothesis allowed_others : forall q, elem_of q allowed -> q <> cond.
Implicit Types (self : Table.t Q).

(** The entry of [cond] is in the cache, with the list [docs], and the
    entries used after it are for queries among [allowed], each once. *)
Definition retained self : Prop :=
  exists older newer,
    LRUCache.cache (Table._query_cache self) = older ++ (cond, docs) :: newer
    /\ ODict.get cond older = None
    /\ ODict.wf newer
    /\ forall q, elem_of q (ODict.keys newer) -> elem_of q allowed.

(** The cache has room for [cond] next to all of [allowed]. *)
Definition room self : Prop :=
  forall n, LRUCache.capacity (Table._query_cache self) = Some n ->
            (length allowed < n)%nat.

Lemma newer_fits (newer : list (Q * PyList)) :
  ODict.wf newer ->
  (forall q, elem_of q (ODict.keys newer) -> elem_of q allowed) ->
  (length newer <= length allowed)%nat.
Proof.
  intros Hwf Hin. unfold ODict.wf in Hwf.
  replace (length newer) with (length (ODict.keys newer))
    by (unfold ODict.keys; apply length_map).
  apply submseteq_length. now apply NoDup_submseteq.
Qed.

Lemma search_capacity (q : Q) self :
  LRUCache.capacity (Table._query_cache (snd (Table.search q self)))
  = LRUCache.capacity (Table._query_cache self).
Proof.
  destruct (ODict.get q (LRUCache.cache (Table._query_cache self)))
    as [l|] eqn:E.
  - now rewrite (search_hit q l self E).
  - rewrite (search_miss q self E). simpl. apply capacity_setitem.
Qed.

Lemma retained_lookup self :
  retained self ->
  ODict.get cond (LRUCache.cache (Table._query_cache self)) = Some docs.
Proof.
  intros (older & newer & Hc & Hold & _). rewrite Hc, get_app, Hold. simpl.
  destruct (decide (cond = cond)); [reflexivity|contradiction].
Qed.

Lemma keys_del_subset (q k : Q) (d : list (Q * PyList)) :
  elem_of k (ODict.keys (ODict.del q d)) -> elem_of k (ODict.keys d).
Proof.
  intros Hin. destruct (ODict.get k d) eqn:E.
  - destruct (decide (elem_of k (ODict.keys d))) as [Hk|Hk]; [exact Hk|].
    apply get_absent_keys in Hk. congruence.
  - exfalso. assert (Hq : ODict.get k (ODict.del q d) = None).
    { destruct (decide (q = k)) as [->|Hne]; [apply get_del_same|].
      now rewrite get_del_other. }
    apply get_absent_keys in Hq. contradiction.
Qed.

(** A search keeps the entry of [cond], whether it is for [cond] or for
    one of [allowed]. *)
Lemma search_retains (q : Q) self :
  q = cond \/ elem_of q allowed ->
  room self -> retained self -> retained (snd (Table.search q self)).
Proof.
  intros Hq Hroom Hret.
  pose proof (retained_lookup self Hret) as Hlook.
  destruct Hret as (older & newer & Hc & Hold & Hwf & Hin).
  assert (Hnew : ODict.get cond newer = None).
  { apply get_absent_keys. intros Hk. now apply (allowed_others _ (Hin _ Hk)). }
  destruct (decide (q = cond)) as [->|Hne].
  { (* the query itself: a hit that moves its entry to the end *)
    rewrite (search_hit cond docs self Hlook). simpl.
    exists (older ++ newer), []. rewrite Hc, del_app. simpl.
    destruct (decide (cond = cond)); [|contradiction].
    rewrite (del_absent cond older Hold), (del_absent cond newer Hnew).
    split; [now rewrite <- app_assoc|].
    split; [now rewrite get_app, Hold|].
    split; [apply NoDup_nil_2|]. intros k Hk. inversion Hk. }
  destruct Hq as [Hq|Hq]; [contradiction|].
  destruct (ODict.get q (LRUCache.cache (Table._query_cache self)))
    as [l|] eqn:E.
  - (* another query that is in the cache: it moves to the end *)
    rewrite (search_hit q l self E). simpl.
    exists (ODict.del q older), (ODict.del q newer ++ [(q, l)]).
    rewrite Hc, del_app. simpl.
    destruct (decide (q = cond)); [contradiction|].
    split; [now rewrite <- app_assoc|].
    split; [now rewrite get_del_other|].
    split; [apply wf_snoc; [now apply wf_del|apply get_del_same]|].
    intros k Hk. rewrite keys_snoc in Hk.
    apply elem_of_app in Hk as [Hk|Hk].
    + apply Hin. now apply keys_del_subset with q.
    + apply list_elem_of_singleton in Hk. now subst k.
  - (* another query that is not: it is added at the end *)
    rewrite (search_miss q self E). simpl.
    set (l := Table.computed q self).
    assert (Hqnew : ODict.get q newer = None).
    { rewrite Hc, get_app in E. destruct (ODict.get q older); [discriminate|].
      simpl in E. now destruct (decide (q = cond)). }
    assert (Hwf' : ODict.wf (newer ++ [(q, l)])) by now apply wf_snoc.
    assert (Hin' : forall k, elem_of k (ODict.keys (newer ++ [(q, l)])) ->
                             elem_of k allowed).
    { intros k Hk. rewrite keys_snoc in Hk.
      apply elem_of_app in Hk as [Hk|Hk]; [now apply Hin|].
      apply list_elem_of_singleton in Hk. now subst k. }
    assert (Hins : LRUCache.inserted q l (Table._query_cache self)
                   = older ++ (cond, docs) :: (newer ++ [(q, l)])).
    { unfold LRUCache.inserted, ODict.mem. rewrite E, Hc.
      now rewrite <- app_assoc. }
    unfold LRUCache.__setitem__. cbv zeta. rewrite Hins.
    destruct (LRUCache.capacity (Table._query_cache self)) as [n|] eqn:Hcap;
      [|simpl; now exists older, (newer ++ [(q, l)])].
    destruct (n <? _)%nat eqn:Hover; simpl;
      [|now exists older, (newer ++ [(q, l)])].
    apply Nat.ltb_lt in Hover.
    destruct older as [|[k0 v0] older]; simpl in *.
    + (* the entry of [cond] is the oldest: then there is room *)
      pose proof (newer_fits _ Hwf' Hin') as Hfit.
      specialize (Hroom n Hcap). lia.
    + exists older, (newer ++ [(q, l)]).
      split; [reflexivity|]. split; [|split; assumption].
      destruct (decide (cond = k0)); [discriminate|exact Hold].
Qed.

(** What a reading call does to the cache. *)
Lemma read_searches (c : Table.Reading Q) (q : Q) self :
  Table.searched c = Some q ->
  snd (Table.read c self) = snd (Table.search q self).
Proof.
  intros Hs.
  destruct c as [| |[c0|] [i|] [ids|]|[c0|] [i|]|c0|c0];
    simpl in Hs; try discriminate; injection Hs as ->;
    unfold Table.read, Table.count, Table.contains, Table.get,
      Py.bind, Py.ret;
    destruct (Table.search q self) as [[l|e] self1]; reflexivity.
Qed.

Lemma read_keeps_cache (c : Table.Reading Q) self :
  Table.searched c = None ->
  Table._query_cache (snd (Table.read c self)) = Table._query_cache self.
Proof.
  intros Hs.
  destruct c as [| |[c0|] [i|] [ids|]|[c0|] [i|]|c0|c0];
    simpl in Hs; try discriminate; clear Hs;
    unfold Table.read, Py.bind, Py.ret;
    rewrite ?get_by_id_run, ?contains_by_id_run; try reflexivity;
    destruct self as [name qc nid st tr fr];
    unfold Table.get, Table.all, Table.__len__, Table.contains;
    run_py; reflexivity.
Qed.

Lemma read_each_retains (cs : list (Table.Reading Q)) self :
  (forall c q, elem_of c cs -> Table.searched c = Some q ->
               q = cond \/ elem_of q allowed) ->
  room self -> retained self -> retained (Table.read_each cs self).
Proof.
  unfold Table.read_each. revert self.
  induction cs as [|c cs IH]; intros self Hcs Hroom Hret; simpl;
    [exact Hret|].
  apply IH.
  - intros c' q Hc'. apply Hcs. now apply list_elem_of_further.
  - intros n Hn. apply Hroom. rewrite <- Hn.
    destruct (Table.searched c) as [q|] eqn:E.
    + rewrite (read_searches c q self E). symmetry. apply search_capacity.
    + now rewrite (read_keeps_cache c self E).
  - destruct (Table.searched c) as [q|] eqn:E.
    + rewrite (read_searches c q self E). apply search_retains; auto.
      apply (Hcs c q); [apply list_elem_of_here|exact E].
    + destruct Hret as (older & newer & Hc & Hrest).
      exists older, newer. now rewrite (read_keeps_cache c self E).
Qed.
End Retention.

Lemma others_spec {Q : Type} `{QueryLike Q} (cond q : Q)
    (cs : list (Table.Reading Q)) :
  elem_of q (Table.others cond cs) <->
  q <> cond /\ exists c, elem_of c cs /\ Table.searched c = Some q.
Proof.
  unfold Table.others.
  rewrite elem_of_remove_dups, list_elem_of_filter, list_elem_of_omap.
  reflexivity.
Qed.

(** C5. A search returns a list. When reading calls ([all], [__len__],
    [get], [contains], [count], [search]) follow it, and the query cache
    has no capacity, or a capacity above the number of other queries
    these calls look up (each counted once), the same search after them
    returns that very list (the same object), and the storage is not
    read and the query not called for it. In every table: a call of
    [insert], [insert_multiple], [update], [remove] or [truncate] that
    returns leaves the query cache empty, and a search after it reads
    the storage, calls the query on every document stored then, and
    returns a new list of those it holds for. *)
Theorem C5_search_is_cached_until_a_mutation :
  forall (Q : Type) `(QueryLike Q) (self : Table.t Q) (cond : Q),
  (forall between : list (Table.Reading Q),
   (forall n, LRUCache.capacity (Table._query_cache self) = Some n ->
              (length (Table.others cond between) < n)%nat) ->
   let first := Table.search cond self in
   let before := Table.read_each between (snd first) in
   let second := Table.search cond before in
   exists docs,
     fst first = Return docs
     /\ fst second = Return docs
     /\ Table.trace (snd second) = Table.trace before
     /\ Table.stored (snd second) = Table.stored before
     /\ Table.fresh (snd second) = Table.fresh before)
  /\ (forall c : Table.Mutation Q,
      fst (Table.mutate c self) = Return tt ->
      let self' := snd (Table.mutate c self) in
      let after := Table.search cond self' in
      LRUCache.cache (Table._query_cache self') = []
      /\ fst after = Return (Table.computed cond self')
      /\ Table.trace (snd after) =
         Table.trace self' ++
         EvRead :: map (fun doc => EvCond cond (value doc))
                     (Table.documents_of (Table.stored_table self'))).
Proof.
  intros Q HQ self cond. split.
  - intros between Hroom first before second.
    assert (Hcap : LRUCache.capacity (Table._query_cache self) <> Some 0%nat).
    { intros H0. specialize (Hroom 0%nat H0). lia. }
    destruct (search_leaves_last cond self Hcap)
      as (docs & older & Hret & Hcache & Hold).
    fold first in Hret, Hcache. exists docs. split; [exact Hret|].
    assert (Hothers : forall q, elem_of q (Table.others cond between) ->
                                q <> cond).
    { intros q Hq. now apply others_spec in Hq as [Hq _]. }
    assert (Hkept : retained cond docs (Table.others cond between) before).
    { apply read_each_retains.
      - exact Hothers.
      - intros c q Hc Hs. destruct (decide (q = cond)) as [Hq|Hq];
          [now left|right]. apply others_spec. split; [exact Hq|].
        now exists c.
      - intros n Hn. apply Hroom. rewrite <- Hn. symmetry.
        apply search_capacity.
      - exists older, []. split; [exact Hcache|]. split; [exact Hold|].
        split; [apply NoDup_nil_2|]. intros q Hq. inversion Hq. }
    pose proof (retained_lookup cond docs _ before Hkept) as Hlook.
    subst second. rewrite (search_hit cond docs before Hlook). simpl.
    repeat split.
  - intros c Hret self' after.
    pose proof (mutate_clears c self) as Hclear.
    destruct (Table.mutate c self) as [[[]|e] self1] eqn:E;
      simpl in Hret; [|discriminate].
    subst self' after. simpl. split; [exact Hclear|].
    rewrite (search_miss cond self1) by (now rewrite Hclear).
    split; reflexivity.
Qed.

(** A table whose cache holds two queries: between two searches with
    one query come reads by ID and two searches with another query; and
    an insert followed by a search. *)
Lemma C5_witness :
  let self := table_on [(1, x_is 1); (2, x_is 2)] (Some 2%nat) in
  let cond := QEq "x" (VInt 1) in
  let between :=
    [Table.CallAll; Table.CallGet None (Some 1) None;
     Table.CallContains None (Some 2); Table.CallSearch QAll;
     Table.CallCount QAll; Table.CallLen] in
  (let first := Table.search cond self in
   let before := Table.read_each between (snd first) in
   let second := Table.search cond before in
   exists docs,
     fst first = Return docs
     /\ fst second = Return docs
     /\ Table.trace (snd second) = Table.trace before
     /\ Table.stored (snd second) = Table.stored before
     /\ Table.fresh (snd second) = Table.fresh before)
  /\ (let self' :=
        snd (Table.mutate (Table.CallInsert (PlainMapping (x_is 1))) self) in
      let after := Table.search cond self' in
      LRUCache.cache (Table._query_cache self') = []
      /\ fst after = Return (Table.computed cond self')
      /\ Table.trace (snd after) =
         Table.trace self' ++
         EvRead :: map (fun doc => EvCond cond (value doc))
                     (Table.documents_of (Table.stored_table self'))).
Proof.
  split.
  - apply (proj1 (C5_search_is_cached_until_a_mutation ExQuery _
                    (table_on [(1, x_is 1); (2, x_is 2)] (Some 2%nat))
                    (QEq "x" (VInt 1)))
             [Table.CallAll; Table.CallGet None (Some 1) None;
              Table.CallContains None (Some 2); Table.CallSearch QAll;
              Table.CallCount QAll; Table.CallLen]).
    intros n Hn. injection Hn as <-. vm_compute. lia.
  - apply (proj2 (C5_search_is_cached_until_a_mutation ExQuery _
                    (table_on [(1, x_is 1); (2, x_is 2)] (Some 2%nat))
                    (QEq "x" (VInt 1)))
             (Table.CallInsert (PlainMapping (x_is 1)))).
    vm_compute. reflexivity.
Defined.

(** Where the second search makes another list and reads the storage
    again although the table was not changed in between: with capacity
    0, right after the first search; with capacity 1, after a search
    with another query; with capacity 10, after [clear_cache]. And after
    an [insert] that raises, the cache is not cleared: the search
    returns the list it returned before. *)
Lemma C5_counterexample :
  (let self := table_on [(1, x_is 1)] (Some 0%nat) in
   let first := Table.search QAll self in
   let second := Table.search QAll (snd first) in
   fst first = Return (mkPyList 0 [mkDocument (x_is 1) 1])
   /\ fst second = Return (mkPyList 1 [mkDocument (x_is 1) 1])
   /\ fst second <> fst first
   /\ Table.trace (snd first) = [EvRead; EvCond QAll (x_is 1)]
   /\ Table.trace (snd second) =
      [EvRead; EvCond QAll (x_is 1); EvRead; EvCond QAll (x_is 1)])
  /\ (let self := table_on [(1, x_is 1)] (Some 1%nat) in
      let first := Table.search QAll self in
      let before :=
        Table.read_each [Table.CallSearch (QEq "x" (VInt 1))] (snd first) in
      let second := Table.search QAll before in
      fst first = Return (mkPyList 0 [mkDocument (x_is 1) 1])
      /\ fst second = Return (mkPyList 2 [mkDocument (x_is 1) 1])
      /\ fst second <> fst first
      /\ Table.trace (snd second) =
         Table.trace before ++ [EvRead; EvCond QAll (x_is 1)])
  /\ (let self := table_on [(1, x_is 1)] (Some 10%nat) in
      let first := Table.search QAll self in
      let before := snd (Table.clear_cache (snd first)) in
      let second := Table.search QAll before in
      fst first = Return (mkPyList 0 [mkDocument (x_is 1) 1])
      /\ fst second = Return (mkPyList 1 [mkDocument (x_is 1) 1])
      /\ fst second <> fst first
      /\ Table.trace (snd second) =
         Table.trace before ++ [EvRead; EvCond QAll (x_is 1)])
  /\ (let self := table_on [(1, x_is 1)] (Some 10%nat) in
      let first := Table.search QAll self in
      let failed := Table.mutate (Table.CallInsert NotMapping) (snd first) in
      let second := Table.search QAll (snd failed) in
      fst failed = Raise (ValueError "Document is not a Mapping")
      /\ LRUCache.cache (Table._query_cache (snd failed)) <> []
      /\ fst second = fst first
      /\ Table.trace (snd second) = Table.trace (snd first)).
Proof.
  vm_compute. repeat split; try reflexivity; discriminate.
Qed.
